(** * AI code-review helper: the webhook worker and the reviewer worker

    A shallow embedding of the two Cloudflare workers of the repository,
    and the proofs of their contracts.

    - [JS]: JavaScript values, exceptions and effects;
    - [Webhook]: [worker-webhook/src/index.ts] -- [verifySignature],
      [generateEventId] and the [fetch] handler (verify, identify,
      dedup-check, record, enqueue);
    - [Reviewer]: the queue consumer -- [callLLM], [processLLMResponse],
      [postCommentsToVCS] and the [queue] handler;
    - [Spec], [WebhookSpec], [ReviewerSpec]: the precedence of event ids as
      the specification words it, and the vocabulary of the statements;
    - [Sample]: a platform and inputs for concrete runs;
    - [JSFacts], [WebhookProofs], [ReviewerProofs]: the proofs.

    JavaScript values of type [any] (webhook payloads, parsed JSON) are
    values of [JS.jsval]; exceptions are explicit ([JS.res]); calls to the
    outside world (KV, queue, HTTP) are recorded in a trace and answered by
    an oracle ([World]).  What the platform provides and the repository
    does not contain ([JSON.parse], HMAC-SHA256) is a field of the class
    [JS.Platform].  Console output is not modelled. *)

From Stdlib Require Import String Ascii List ZArith Bool Lia DecimalString.
From Stdlib Require Strings.Byte.
Import ListNotations.
Open Scope string_scope.
Set Warnings "-register-all".


(* ================================================================== *)
(** ** JavaScript values, exceptions and effects *)
(* ================================================================== *)

Module JS.

(** A value as [JSON.parse] builds it, plus [undefined].  Numbers are the
    integers; an object is its list of properties (one entry per key). *)
Inductive jsval : Type :=
| JUndefined
| JNull
| JBool (b : bool)
| JNum (n : Z)
| JStr (s : string)
| JArr (items : list jsval)
| JObj (fields : list (string * jsval)).

(** Truthiness: what [if (v)], [!v], [&&] and [||] test. *)
Definition truthy (v : jsval) : bool :=
  match v with
  | JUndefined | JNull => false
  | JBool b => b
  | JNum n => negb (n =? 0)%Z
  | JStr s => negb (s =? "")
  | JArr _ | JObj _ => true
  end.

Definition truthy_str (s : string) : bool := negb (s =? "").

(** [string | null] and [string | undefined]: [None] is the missing value. *)
Definition truthy_opt (o : option string) : bool :=
  match o with
  | Some s => truthy_str s
  | None => false
  end.

Definition string_of_Z (n : Z) : string := NilZero.string_of_int (Z.to_int n).

(** The string a template literal [`${v}`] inserts. *)
Fixpoint to_string (v : jsval) : string :=
  match v with
  | JUndefined => "undefined"
  | JNull => "null"
  | JBool true => "true"
  | JBool false => "false"
  | JNum n => string_of_Z n
  | JStr s => s
  | JArr items =>
      (fix join (l : list jsval) : string :=
         match l with
         | [] => ""
         | x :: r =>
             let here := match x with
                         | JUndefined | JNull => ""
                         | _ => to_string x
                         end in
             match r with
             | [] => here
             | _ :: _ => here ++ "," ++ join r
             end
         end) items
  | JObj _ => "[object Object]"
  end.

Fixpoint lookup (k : string) (fields : list (string * jsval)) : jsval :=
  match fields with
  | [] => JUndefined
  | (k', v) :: rest => if k' =? k then v else lookup k rest
  end.

(** What can be thrown.  [Foreign] is an error raised by the platform (KV,
    queue, fetch, crypto); it may carry an [isRetryable] property. *)
Inductive js_error : Type :=
| TypeError (message : string)
| SyntaxError (message : string)
| PlainError (message : string)
| RetryableWorkerError (message : string)
| Foreign (message : string) (isRetryable : bool).

Definition error_message (e : js_error) : string :=
  match e with
  | TypeError m | SyntaxError m | PlainError m | RetryableWorkerError m => m
  | Foreign m _ => m
  end.

Inductive res (A : Type) : Type :=
| Ok (a : A)
| Throw (e : js_error).
Arguments Ok {A} a.
Arguments Throw {A} e.

Definition rbind {A B : Type} (r : res A) (k : A -> res B) : res B :=
  match r with
  | Ok a => k a
  | Throw e => Throw e
  end.

Definition rcatch {A : Type} (r : res A) (h : js_error -> res A) : res A :=
  match r with
  | Ok a => Ok a
  | Throw e => h e
  end.

Declare Scope js_scope.
Delimit Scope js_scope with js.
Notation "'let!' x ':=' c 'in' k" := (rbind c (fun x => k))
  (at level 10, x pattern, c at level 100, k at level 200) : js_scope.

(** [v.k]: a [TypeError] on [null] and [undefined]; [undefined] for a
    property the value does not have.  Only own properties are modelled
    (the code reads no inherited one), and [length] of arrays and strings. *)
Definition prop (v : jsval) (k : string) : res jsval :=
  match v with
  | JUndefined =>
      Throw (TypeError ("Cannot read properties of undefined (reading '" ++ k ++ "')"))
  | JNull =>
      Throw (TypeError ("Cannot read properties of null (reading '" ++ k ++ "')"))
  | JObj fields => Ok (lookup k fields)
  | JArr items =>
      Ok (if k =? "length" then JNum (Z.of_nat (List.length items)) else JUndefined)
  | JStr s =>
      Ok (if k =? "length" then JNum (Z.of_nat (String.length s)) else JUndefined)
  | JBool _ | JNum _ => Ok JUndefined
  end.

(** [v?.k] *)
Definition opt_prop (v : jsval) (k : string) : jsval :=
  match v with
  | JUndefined | JNull => JUndefined
  | _ => match prop v k with Ok x => x | Throw _ => JUndefined end
  end.

(** [v?.[0]] *)
Definition opt_first (v : jsval) : jsval :=
  match v with
  | JArr (x :: _) => x
  | JStr (String c _) => JStr (String c EmptyString)
  | JObj fields => lookup "0" fields
  | _ => JUndefined
  end.

Definition get (r : res jsval) (k : string) : res jsval := rbind r (fun v => prop v k).
Definition get_opt (r : res jsval) (k : string) : res jsval :=
  rbind r (fun v => Ok (opt_prop v k)).

(** [a && b] and [a || b]; the right operand is only used when the left one
    does not decide. *)
Definition js_and (a b : res jsval) : res jsval :=
  rbind a (fun x => if truthy x then b else Ok x).
Definition js_or (a b : res jsval) : res jsval :=
  rbind a (fun x => if truthy x then Ok x else b).

Notation "r @. k" := (get r k) (at level 28, left associativity) : js_scope.
Notation "r @? k" := (get_opt r k) (at level 28, left associativity) : js_scope.
Notation "a &&& b" := (js_and a b) (at level 40, left associativity) : js_scope.
Notation "a ||| b" := (js_or a b) (at level 50, left associativity) : js_scope.

(** [a || b] on values that are already computed. *)
Definition or_else (a b : jsval) : jsval := if truthy a then a else b.

Definition nullish (v : jsval) : bool :=
  match v with
  | JUndefined | JNull => true
  | _ => false
  end.

(** [v === 'literal'] *)
Definition is_str (v : jsval) (s : string) : bool :=
  match v with
  | JStr s' => s' =? s
  | _ => false
  end.

(** *** Strings *)

(** [s.split(sep)] for a one-character separator. *)
Fixpoint split_on (sep : ascii) (s : string) : list string :=
  match s with
  | EmptyString => [EmptyString]
  | String c rest =>
      if Ascii.eqb c sep then EmptyString :: split_on sep rest
      else match split_on sep rest with
           | h :: t => String c h :: t
           | [] => [String c EmptyString]
           end
  end.

(** [hay.includes(needle)] *)
Definition includes (hay needle : string) : bool :=
  match index 0 needle hay with
  | Some _ => true
  | None => false
  end.

Definition nl : string := String (ascii_of_nat 10) EmptyString.
Definition dquote : string := String (ascii_of_nat 34) EmptyString.
Definition quoted (s : string) : string := dquote ++ s ++ dquote.

(** [s.substring(0, n)] *)
Definition take (n : nat) (s : string) : string := substring 0 n s.

Definition lower_ascii (c : ascii) : ascii :=
  let n := nat_of_ascii c in
  if (65 <=? n)%nat && (n <=? 90)%nat then ascii_of_nat (n + 32) else c.

Fixpoint lower (s : string) : string :=
  match s with
  | EmptyString => EmptyString
  | String c r => String (lower_ascii c) (lower r)
  end.

(** A [Headers] object: one entry per name, names compared without case. *)
Definition Headers : Type := list (string * string).

Fixpoint headers_get (h : Headers) (name : string) : option string :=
  match h with
  | [] => None
  | (k, v) :: rest => if lower k =? lower name then Some v else headers_get rest name
  end.

(** [b.toString(16).padStart(2, '0')] and the [join('')] of a digest. *)
Definition hex_digit (n : N) : ascii :=
  match n with
  | 0%N => "0"%char | 1%N => "1"%char | 2%N => "2"%char | 3%N => "3"%char
  | 4%N => "4"%char | 5%N => "5"%char | 6%N => "6"%char | 7%N => "7"%char
  | 8%N => "8"%char | 9%N => "9"%char | 10%N => "a"%char | 11%N => "b"%char
  | 12%N => "c"%char | 13%N => "d"%char | 14%N => "e"%char | _ => "f"%char
  end.

Definition hex_byte (b : Byte.byte) : string :=
  let n := Byte.to_N b in
  String (hex_digit (N.div n 16)) (String (hex_digit (N.modulo n 16)) EmptyString).

Fixpoint hex_of_bytes (l : list Byte.byte) : string :=
  match l with
  | [] => EmptyString
  | b :: r => hex_byte b ++ hex_of_bytes r
  end.

(** *** What the runtime provides

    [JSON_parse s] is [JSON.parse(s)] (a [SyntaxError] on malformed text);
    [hmac_sha256 key msg] is the MAC that [crypto.subtle.sign('HMAC', ...)]
    computes over the encoded message under the encoded key. *)
Class Platform : Type := {
  JSON_parse : string -> res jsval;
  hmac_sha256 : string -> string -> list Byte.byte
}.

(** [crypto.subtle.importKey('raw', key, {name:'HMAC',...})] rejects a key
    of length zero. *)
Definition importKey (raw : string) : res string :=
  if raw =? "" then Throw (Foreign "Zero-length key is not supported" false)
  else Ok raw.

(** *** Effects

    A computation reads and writes local variables of type [S], records the
    calls it makes to the outside world (events of type [E]) and returns or
    throws. *)
Definition M (S E A : Type) : Type := S -> list E * S * res A.

Definition ret {S E A : Type} (a : A) : M S E A := fun s => ([], s, Ok a).

Definition throw {S E A : Type} (e : js_error) : M S E A := fun s => ([], s, Throw e).

Definition bind {S E A B : Type} (m : M S E A) (k : A -> M S E B) : M S E B :=
  fun s =>
    match m s with
    | (t, s', Ok a) => let '(t', s'', r) := k a s' in ((t ++ t')%list, s'', r)
    | (t, s', Throw e) => (t, s', Throw e)
    end.

(** [try { m } catch (e) { h e }]: the handler starts from the variables as
    the throw left them. *)
Definition try_catch {S E A : Type} (m : M S E A) (h : js_error -> M S E A) : M S E A :=
  fun s =>
    match m s with
    | (t, s', Ok a) => (t, s', Ok a)
    | (t, s', Throw e) => let '(t', s'', r) := h e s' in ((t ++ t')%list, s'', r)
    end.

Definition lift {S E A : Type} (r : res A) : M S E A := fun s => ([], s, r).

(** An awaited call to the outside world: the event is recorded, the
    oracle's answer is the result. *)
Definition perform {S E A : Type} (e : E) (answer : res A) : M S E A :=
  fun s => ([e], s, answer).

Definition read {S E : Type} : M S E S := fun s => ([], s, Ok s).
Definition write {S E : Type} (s' : S) : M S E unit := fun _ => ([], s', Ok tt).

Notation "x <- c ;; k" := (bind c (fun x => k))
  (at level 61, c at next level, right associativity) : js_scope.
Notation "c ;; k" := (bind c (fun _ => k))
  (at level 61, right associativity) : js_scope.

End JS.

(* ================================================================== *)
(** ** The webhook worker ([worker-webhook/src/index.ts]) *)
(* ================================================================== *)

Module Webhook.
Import JS.
Local Open Scope js_scope.

(** The secrets of [Env]; its two bindings (KV namespace, queue) are the
    oracle [World] below. *)
Record Env : Type := {
  GITHUB_WEBHOOK_SECRET : option string;
  GITLAB_WEBHOOK_SECRET : option string
}.

(** The parts of a [Request] the handler reads: the method, the path of its
    URL, the headers and the text of the body. *)
Record Request : Type := {
  method : string;
  pathname : string;
  headers : Headers;
  text : string
}.

(** A response: the status and the object handed to [JSON.stringify]. *)
Record Response : Type := {
  status : Z;
  body : jsval
}.

Definition jsonResponse (data : jsval) (status : Z) : Response :=
  {| status := status; body := data |}.

(** How the outside world answers one invocation: what the KV namespace
    returns for [get] and [put], what the queue returns for [send], and the
    values of [crypto.randomUUID()] and [Date.now()]. *)
Record World : Type := {
  kv_get : string -> res (option string);
  kv_put : string -> res unit;
  queue_send : res unit;
  randomUUID : string;
  Date_now : Z
}.

(** The calls the handler makes on its bindings. *)
Inductive call : Type :=
| KV_get (key : string)
| KV_put (key : string) (value : jsval) (expirationTtl : Z)
| Queue_send (taskPayload : jsval).

Definition opt_is (o : option string) (s : string) : bool :=
  match o with
  | Some s' => s' =? s
  | None => false
  end.

Definition verifySignature `{Platform} (request : Request) (env : Env)
    (source rawBody : string) : res bool :=
  if source =? "github" then
    match headers_get (headers request) "X-Hub-Signature-256" with
    | None => Ok false
    | Some signatureHeader =>
        if negb (truthy_str signatureHeader) then Ok false
        else
          match GITHUB_WEBHOOK_SECRET env with
          | None => Ok false
          | Some secret =>
              if negb (truthy_str secret) then Ok false
              else
                let parts := split_on "=" signatureHeader in
                let algorithm := nth_error parts 0 in
                let signatureHex := nth_error parts 1 in
                if negb (opt_is algorithm "sha256") then Ok false
                else
                  let! key := importKey secret in
                  let mac := hmac_sha256 key rawBody in
                  let computedSignatureHex := hex_of_bytes mac in
                  Ok (opt_is signatureHex computedSignatureHex)
          end
    end
  else if source =? "gitlab" then
    match headers_get (headers request) "X-Gitlab-Token" with
    | None => Ok false
    | Some tokenHeader =>
        if negb (truthy_str tokenHeader) then Ok false
        else
          match GITLAB_WEBHOOK_SECRET env with
          | None => Ok false
          | Some secret =>
              if negb (truthy_str secret) then Ok false
              else Ok (tokenHeader =? secret)
          end
    end
  else Ok false.

(** The body of the [try] of [generateEventId], provider A. *)
Definition github_event_id (uuid : string) (payload : jsval) (headers : Headers)
    : res (option string) :=
  let p := Ok payload in
  let! c1 := p @. "pull_request" &&& p @. "pull_request" @. "node_id" &&& p @. "action" in
  if truthy c1 then
    let! node_id := p @. "pull_request" @. "node_id" in
    let! action := p @. "action" in
    let! sha := p @. "pull_request" @. "head" @? "sha" ||| p @. "after"
                ||| Ok (JStr "unknown_sha") in
    Ok (Some ("gh_pr_" ++ to_string node_id ++ "_" ++ to_string action ++ "_"
              ++ to_string sha))
  else
  let! c2 := p @. "ref" &&& p @. "after" &&& p @. "repository"
             &&& p @. "repository" @. "node_id" in
  if truthy c2 then
    let! node_id := p @. "repository" @. "node_id" in
    let! ref := p @. "ref" in
    let! after := p @. "after" in
    Ok (Some ("gh_push_" ++ to_string node_id ++ "_" ++ to_string ref ++ "_"
              ++ to_string after))
  else
  let! c3 := p @. "comment" &&& p @. "comment" @. "node_id" &&& p @. "issue"
             &&& p @. "issue" @. "node_id" in
  if truthy c3 then
    let! comment_id := p @. "comment" @. "node_id" in
    let! issue_id := p @. "issue" @. "node_id" in
    Ok (Some ("gh_comment_" ++ to_string comment_id ++ "_on_issue_"
              ++ to_string issue_id))
  else
  let deliveryId := headers_get headers "X-GitHub-Delivery" in
  match deliveryId with
  | Some d => if truthy_str d then Ok (Some ("gh_delivery_" ++ d))
              else Ok (Some ("gh_unknown_" ++ uuid))
  | None => Ok (Some ("gh_unknown_" ++ uuid))
  end.

(** The body of the [try] of [generateEventId], provider B. *)
Definition gitlab_payload_id (uuid : string) (payload : jsval) : res (option string) :=
  let p := Ok payload in
  let! kind := p @. "object_kind" in
  let! c1 := Ok (JBool (is_str kind "merge_request")) &&& p @. "project"
             &&& p @. "project" @. "id" &&& p @. "object_attributes"
             &&& p @. "object_attributes" @. "iid"
             &&& p @. "object_attributes" @. "last_commit"
             &&& p @. "object_attributes" @. "last_commit" @. "id" in
  if truthy c1 then
    let! project_id := p @. "project" @. "id" in
    let! iid := p @. "object_attributes" @. "iid" in
    let! commit_id := p @. "object_attributes" @. "last_commit" @. "id" in
    Ok (Some ("gl_mr_" ++ to_string project_id ++ "_" ++ to_string iid ++ "_"
              ++ to_string commit_id))
  else
  let! kind := p @. "object_kind" in
  let! c2 := Ok (JBool (is_str kind "push")) &&& p @. "project_id" &&& p @. "ref"
             &&& p @. "after" in
  if truthy c2 then
    let! project_id := p @. "project_id" in
    let! ref := p @. "ref" in
    let! after := p @. "after" in
    Ok (Some ("gl_push_" ++ to_string project_id ++ "_" ++ to_string ref ++ "_"
              ++ to_string after))
  else
  let! kind := p @. "object_kind" in
  let! c3 := Ok (JBool (is_str kind "note")) &&& p @. "project"
             &&& p @. "project" @. "id" &&& p @. "object_attributes"
             &&& p @. "object_attributes" @. "id" in
  if truthy c3 then
    let! project_id := p @. "project" @. "id" in
    let! note_id := p @. "object_attributes" @. "id" in
    Ok (Some ("gl_note_" ++ to_string project_id ++ "_" ++ to_string note_id))
  else Ok (Some ("gl_unknown_" ++ uuid)).

Definition gitlab_event_id (uuid : string) (payload : jsval) (headers : Headers)
    : res (option string) :=
  let deliveryId := headers_get headers "X-Gitlab-Event-UUID" in
  match deliveryId with
  | Some d => if truthy_str d then Ok (Some ("gl_delivery_" ++ d))
              else gitlab_payload_id uuid payload
  | None => gitlab_payload_id uuid payload
  end.

(** The [try] block of [generateEventId] followed by the final
    [return null]; [None] is [null]. *)
Definition event_id_try (uuid : string) (source : string) (payload : jsval)
    (headers : Headers) : res (option string) :=
  if source =? "github" then github_event_id uuid payload headers
  else if source =? "gitlab" then gitlab_event_id uuid payload headers
  else Ok None.

(** [generateEventId]; [uuid] is what [crypto.randomUUID()] returns. *)
Definition generateEventId (uuid : string) (source : string) (payload : jsval)
    (headers : Headers) : res (option string) :=
  rcatch (event_id_try uuid source payload headers)
         (fun _ => Ok (Some ("error_event_id_" ++ uuid))).

Definition error_body (msg : string) : jsval := JObj [("error", JStr msg)].

(** The [try] block of [fetch], from the signature check to the response. *)
Definition process `{Platform} (request : Request) (env : Env) (w : World)
    (source : string) (payload : jsval) (rawBody : string) : M unit call Response :=
  isValidSignature <- lift (verifySignature request env source rawBody) ;;
  if negb isValidSignature then ret (jsonResponse (error_body "Invalid signature.") 401)
  else
    eventId <- lift (generateEventId (randomUUID w) source payload (headers request)) ;;
    if negb (truthy_opt eventId) then
      ret (jsonResponse (error_body "Could not determine event ID for deduplication.") 400)
    else
      let eventId := match eventId with Some i => i | None => "" end in
      existingEvent <- perform (KV_get eventId) (kv_get w eventId) ;;
      if truthy_opt existingEvent then
        ret (jsonResponse (JObj [("message", JStr "Event already processed.");
                                 ("eventId", JStr eventId)]) 202)
      else
        perform (KV_put eventId
                   (JObj [("timestamp", JNum (Date_now w)); ("status", JStr "received")])
                   3600)
                (kv_put w eventId) ;;
        let taskPayload := JObj [("source", JStr source); ("eventId", JStr eventId);
                                 ("originalPayload", payload)] in
        perform (Queue_send taskPayload) (queue_send w) ;;
        ret (jsonResponse
               (JObj [("message",
                       JStr ("Webhook from " ++ source ++ " (Event ID: " ++ eventId
                             ++ ") received, validated, and enqueued successfully."));
                      ("eventId", JStr eventId)]) 200).

(** The [fetch] handler: the calls made, in order, and the response. *)
Definition fetch `{Platform} (request : Request) (env : Env) (w : World)
    : list call * Response :=
  if negb (method request =? "POST") then
    ([], jsonResponse (error_body "Method Not Allowed") 405)
  else if prefix "/webhook/" (pathname request) then
    let source := nth_error (split_on "/" (pathname request)) 2 in
    if negb (truthy_opt source) || (negb (opt_is source "github") && negb (opt_is source "gitlab"))
    then ([], jsonResponse
                (error_body ("Invalid source. Must be " ++ quoted "github" ++ " or "
                             ++ quoted "gitlab" ++ ".")) 400)
    else
      let source := match source with Some s => s | None => "" end in
      if negb (opt_is (headers_get (headers request) "content-type") "application/json")
      then ([], jsonResponse (error_body "Invalid content type. Must be application/json.") 400)
      else
        let rawBody := text request in
        match JSON_parse rawBody with
        | Throw e =>
            ([], jsonResponse
                   (error_body ("Invalid JSON payload. " ++ error_message e)) 400)
        | Ok payload =>
            let '(calls, _, r) :=
              try_catch (process request env w source payload rawBody)
                (fun error =>
                   ret (jsonResponse
                          (error_body ("Error processing webhook: " ++ error_message error))
                          500)) tt in
            (calls,
             match r with
             | Ok response => response
             | Throw error => jsonResponse (error_body (error_message error)) 500
             end)
        end
  else ([], jsonResponse (error_body "Not found.") 404).

End Webhook.

(* ================================================================== *)
(** ** The reviewer worker (queue consumer) *)
(* ================================================================== *)

Module Reviewer.
Import JS.
Local Open Scope js_scope.

Record Env : Type := {
  LLM_API_KEY : string;
  GITHUB_TOKEN : string;
  GITLAB_TOKEN : string;
  LLM_ENDPOINT : string;
  LLM_MODEL_NAME : option string
}.

(** The interfaces of the worker.  Their structure is the declared one;
    a leaf that is copied from a payload or from the LLM's answer keeps the
    value it has there ([jsval], [JUndefined] when absent). *)
Record FileToReview : Type := {
  path : jsval;
  content : jsval;
  diff : jsval
}.

Record WebhookQueueMessage : Type := {
  msg_source : string;
  msg_eventId : string;
  originalPayload : jsval;
  msg_reviewType : jsval;
  msg_filesToReview : option (list FileToReview)
}.

Record Repository : Type := {
  fullName : jsval;
  repo_id : jsval;
  defaultBranch : jsval
}.

Record PullRequest : Type := {
  pr_id : jsval;
  number : jsval;
  pr_headSha : jsval;
  pr_diffUrl : jsval;
  commentsUrl : jsval
}.

Record MergeRequest : Type := {
  mr_id : jsval;
  iid : jsval;
  projectId : jsval;
  mr_headSha : jsval;
  mr_diffUrl : string;
  notesUrl : string
}.

Record ReviewTask : Type := {
  repository : Repository;
  pullRequest : option PullRequest;
  mergeRequest : option MergeRequest;
  source : string;
  eventId : string;
  reviewType : jsval;
  filesToReview : list FileToReview
}.

Record LLMComment : Type := {
  filePath : jsval;
  lineNumber : jsval;
  position : jsval;
  comment : jsval
}.

Record LLMResponse : Type := {
  success : bool;
  comments : option (list LLMComment);
  summary : jsval;
  error : option string;
  rawResponse : jsval;
  isRetryable : option bool
}.

Inductive Status : Type :=
| completed
| failed
| error_calling_llm
| error_posting_comment.

Definition Status_eqb (a b : Status) : bool :=
  match a, b with
  | completed, completed | failed, failed
  | error_calling_llm, error_calling_llm
  | error_posting_comment, error_posting_comment => true
  | _, _ => false
  end.

Record ReviewOutcome : Type := {
  taskId : string;
  status : Status;
  out_repository : jsval;
  out_pullRequest : option PullRequest;
  out_mergeRequest : option MergeRequest;
  out_reviewType : jsval;
  out_comments : option (list LLMComment);
  out_summary : jsval;
  out_error : option string;
  llmRawResponse : jsval;
  timestamp : string
}.

Record Message : Type := {
  message_id : string;
  message_body : WebhookQueueMessage
}.

(** What [fetch] resolves to: a rejection, or a response with its status
    and the outcome of reading its text. *)
Inductive fetch_result : Type :=
| NetworkError (e : js_error)
| HttpResponse (status : Z) (text : res string).

Definition response_ok (status : Z) : bool := (200 <=? status)%Z && (status <=? 299)%Z.

Definition await_fetch (r : fetch_result) : res (Z * res string) :=
  match r with
  | NetworkError e => Throw e
  | HttpResponse st txt => Ok (st, txt)
  end.

(** How the outside world answers while one message is processed: the LLM
    endpoint, the VCS API for the i-th comment, the KV [put] of the [try]
    block and the one of the [catch] block, and [new Date().toISOString()]. *)
Record World : Type := {
  llm_fetch : fetch_result;
  vcs_fetch : nat -> fetch_result;
  kv_put_try : res unit;
  kv_put_catch : res unit;
  now : string
}.

(** The calls the consumer makes.  The LLM request is given by its
    endpoint, key, model and prompt (the other fields are constants). *)
Inductive call : Type :=
| LLM_fetch (endpoint apiKey model promptContent : string)
| VCS_fetch (url authToken : string) (body : jsval)
| Sleep (ms : Z)
| KV_put (key : string) (value : ReviewOutcome) (meta_status : Status)
         (meta_timestamp : string)
| Ack (id : string).

(** The local variables of the loop body of [queue]. *)
Record Locals : Type := {
  reviewOutcome : option ReviewOutcome;
  currentTask : option ReviewTask
}.

Definition no_locals : Locals := {| reviewOutcome := None; currentTask := None |}.

(** *** Reading an array of objects at its declared type

    The source casts [op.filesToReview] and the parsed content of the LLM
    to their interfaces without a check.  The model reads an array as the
    list of its elements, each element as the record of its fields, and a
    value that is not an array as absent. *)

Definition file_of_json (v : jsval) : FileToReview :=
  {| path := opt_prop v "path"; content := opt_prop v "content"; diff := opt_prop v "diff" |}.

Definition files_of_json (v : jsval) : option (list FileToReview) :=
  match v with
  | JArr items => Some (map file_of_json items)
  | _ => None
  end.

Definition comment_of_json (v : jsval) : LLMComment :=
  {| filePath := opt_prop v "filePath"; lineNumber := opt_prop v "lineNumber";
     position := opt_prop v "position"; comment := opt_prop v "comment" |}.

Definition comments_of_json (v : jsval) : option (list LLMComment) :=
  match v with
  | JArr items => Some (map comment_of_json items)
  | _ => None
  end.

Definition string_of_json (v : jsval) : option string :=
  match v with
  | JStr s => Some s
  | _ => None
  end.

Definition nonempty {A : Type} (o : option (list A)) : bool :=
  match o with
  | Some (_ :: _) => true
  | _ => false
  end.

(** *** The task built from a message (lines 79-101) *)

Definition build_pullRequest (op : jsval) : res (option PullRequest) :=
  let! pr := prop op "pull_request" in
  if truthy pr then
    let! id := prop pr "id" in
    let! num := prop pr "number" in
    let! sha := Ok pr @. "head" @? "sha" ||| Ok pr @. "diff_head_sha" in
    let! diff_url := prop pr "diff_url" in
    let! comments_url := prop pr "comments_url" in
    Ok (Some {| pr_id := id; number := num; pr_headSha := sha; pr_diffUrl := diff_url;
                commentsUrl := comments_url |})
  else Ok None.

Definition build_mergeRequest (op : jsval) : res (option MergeRequest) :=
  let! oa := prop op "object_attributes" in
  let! is_mr := Ok oa &&& (let! k := prop op "object_kind" in
                           Ok (JBool (is_str k "merge_request"))) in
  if truthy is_mr then
    let! id := prop oa "id" in
    let! iid := prop oa "iid" in
    let! project_id := Ok op @. "project" @. "id" in
    let! sha := Ok oa @. "last_commit" @? "id" ||| Ok oa @. "diff_head_sha" in
    let! web_url := Ok op @. "project" @. "web_url" in
    Ok (Some {| mr_id := id; iid := iid; projectId := project_id; mr_headSha := sha;
                mr_diffUrl := to_string web_url ++ "/-/merge_requests/" ++ to_string iid
                              ++ "/diffs.json";
                notesUrl := "https://gitlab.com/api/v4/projects/" ++ to_string project_id
                            ++ "/merge_requests/" ++ to_string iid ++ "/notes" |})
  else Ok None.

Definition build_task (body : WebhookQueueMessage) : res ReviewTask :=
  let op := originalPayload body in
  let! full_name := Ok op @. "repository" @? "full_name"
                    ||| Ok op @. "project" @? "path_with_namespace"
                    ||| Ok (JStr "unknown/repo") in
  let! id := Ok op @. "repository" @? "id" ||| Ok op @. "project" @? "id"
             ||| Ok (JNum 0) in
  let! branch := Ok op @. "repository" @? "default_branch"
                 ||| Ok op @. "project" @? "default_branch" ||| Ok (JStr "main") in
  let! pr := build_pullRequest op in
  let! mr := build_mergeRequest op in
  let! review_type := Ok (msg_reviewType body) ||| Ok op @. "reviewType"
                      ||| Ok (JStr "general") in
  let! files :=
    match msg_filesToReview body with
    | Some fs => Ok fs
    | None =>
        let! fs := prop op "filesToReview" in
        Ok (if truthy fs then match files_of_json fs with Some l => l | None => [] end
            else [])
    end in
  Ok {| repository := {| fullName := full_name; repo_id := id; defaultBranch := branch |};
        pullRequest := pr; mergeRequest := mr;
        source := msg_source body; eventId := msg_eventId body;
        reviewType := review_type; filesToReview := files |}.

(** *** [callLLM] *)

Definition file_prompt (file : FileToReview) : string :=
  nl ++ "File: " ++ to_string (path file) ++ nl
  ++ (if truthy (diff file) then "Diff:" ++ nl ++ to_string (diff file) ++ nl
      else if truthy (content file) then "Content:" ++ nl ++ to_string (content file) ++ nl
      else "").

Definition build_prompt (task : ReviewTask) : string :=
  "Please review the following code changes for the repository "
  ++ to_string (fullName (repository task)) ++ "." ++ nl
  ++ "Source: " ++ source task ++ nl
  ++ match pullRequest task, mergeRequest task with
     | Some pr, _ => "Pull Request: #" ++ to_string (number pr) ++ nl
     | None, Some mr => "Merge Request: !" ++ to_string (iid mr) ++ nl
     | None, None => ""
     end
  ++ match filesToReview task with
     | [] => "No specific file diffs provided. Please provide a general review." ++ nl
     | files => String.concat EmptyString (map file_prompt files)
     end
  ++ nl ++ "Format your response as a JSON object with 'success' (boolean), 'comments' (array of objects with 'filePath', 'lineNumber' or 'position', and 'comment'), and 'summary' (string)."
  ++ (if is_str (reviewType task) "detailed"
      then " Focus on detailed, line-by-line feedback."
      else " Focus on a general overview and high-level suggestions.").

Definition failure (err : string) (raw : jsval) (retryable : bool) : LLMResponse :=
  {| success := false; comments := None; summary := JUndefined; error := Some err;
     rawResponse := raw; isRetryable := Some retryable |}.

(** [{ ...parsedLlmContent, rawResponse: jsonResponse, isRetryable: false }]
    once [parsedLlmContent.success] is known to be the boolean [b]. *)
Definition spread_content (parsed : jsval) (b : bool) (jsonResponse : jsval) : LLMResponse :=
  {| success := b;
     comments := comments_of_json (opt_prop parsed "comments");
     summary := opt_prop parsed "summary";
     error := string_of_json (opt_prop parsed "error");
     rawResponse := jsonResponse;
     isRetryable := Some false |}.

(** The innermost [try]/[catch]: the content string parsed and checked. *)
Definition read_content {L : Type} `{Platform} (llmContentString : string)
    (jsonResponse : jsval) : M L call LLMResponse :=
  try_catch
    (parsedLlmContent <- lift (JSON_parse llmContentString) ;;
     succ <- lift (prop parsedLlmContent "success") ;;
     match succ with
     | JBool b => ret (spread_content parsedLlmContent b jsonResponse)
     | _ => ret (failure "LLM output format error: missing 'success'." jsonResponse false)
     end)
    (fun e => ret (failure ("LLM content not valid JSON: " ++ error_message e)
                           jsonResponse false)).

(** The [try]/[catch] around the outer [JSON.parse]. *)
Definition read_envelope {L : Type} `{Platform} (responseText : string)
    : M L call LLMResponse :=
  try_catch
    (jsonResponse <- lift (JSON_parse responseText) ;;
     choices <- lift (prop jsonResponse "choices") ;;
     let llmContentString := opt_prop (opt_prop (opt_first choices) "message") "content" in
     match llmContentString with
     | JStr s => read_content s jsonResponse
     | _ => ret (failure "LLM response structure error." jsonResponse false)
     end)
    (fun e => ret (failure ("LLM API response not JSON: " ++ error_message e)
                           (JStr responseText) true)).

(** [env.LLM_MODEL_NAME || "gpt-3.5-turbo"] *)
Definition model_name (env : Env) : string :=
  match LLM_MODEL_NAME env with
  | Some m => if truthy_str m then m else "gpt-3.5-turbo"
  | None => "gpt-3.5-turbo"
  end.

Definition callLLM {L : Type} `{Platform} (task : ReviewTask) (env : Env) (w : World)
    : M L call LLMResponse :=
  let promptContent := build_prompt task in
  try_catch
    (response <- perform (LLM_fetch (LLM_ENDPOINT env) (LLM_API_KEY env) (model_name env)
                                    promptContent)
                         (await_fetch (llm_fetch w)) ;;
     let '(status, text) := response in
     responseText <- lift text ;;
     if negb (response_ok status) then
       let retryable := (500 <=? status)%Z in
       ret (failure ("LLM API error " ++ string_of_Z status ++ ": " ++ take 100 responseText)
                    (JStr responseText) retryable)
     else read_envelope responseText)
    (fun error =>
       ret {| success := false; comments := None; summary := JUndefined;
              error := Some ("Network error calling LLM: " ++ error_message error);
              rawResponse := JUndefined; isRetryable := Some true |}).

(** *** [processLLMResponse]; [timestamp] is [new Date().toISOString()] *)

Definition processLLMResponse (llmResponse : LLMResponse) (task : ReviewTask)
    (timestamp : string) : ReviewOutcome :=
  if negb (success llmResponse) then
    let status := match isRetryable llmResponse with
                  | Some false => error_calling_llm
                  | _ => failed
                  end in
    {| taskId := eventId task; status := status;
       out_repository := fullName (repository task);
       out_pullRequest := pullRequest task; out_mergeRequest := mergeRequest task;
       out_reviewType := reviewType task;
       out_comments := None; out_summary := JUndefined;
       out_error := Some (match error llmResponse with
                          | Some e => if truthy_str e then e else "LLM processing failed."
                          | None => "LLM processing failed."
                          end);
       llmRawResponse := rawResponse llmResponse; timestamp := timestamp |}
  else
    {| taskId := eventId task; status := completed;
       out_repository := fullName (repository task);
       out_pullRequest := pullRequest task; out_mergeRequest := mergeRequest task;
       out_reviewType := reviewType task;
       out_comments := comments llmResponse; out_summary := summary llmResponse;
       out_error := None;
       llmRawResponse := rawResponse llmResponse; timestamp := timestamp |}.

(** *** [postCommentsToVCS] *)

Definition github_body (pr : PullRequest) (c : LLMComment) : jsval :=
  JObj [("body", comment c); ("commit_id", pr_headSha pr); ("path", filePath c);
        ("line", lineNumber c); ("position", position c)].

Definition gitlab_body (mr : MergeRequest) (c : LLMComment) : jsval :=
  if truthy (filePath c) && (truthy (lineNumber c) || truthy (position c)) then
    JObj [("body", comment c);
          ("position",
           JObj [("position_type", JStr "text"); ("base_sha", mr_headSha mr);
                 ("start_sha", mr_headSha mr); ("head_sha", mr_headSha mr);
                 ("new_line", or_else (lineNumber c) (position c));
                 ("old_path", filePath c); ("new_path", filePath c)])]
  else JObj [("body", comment c)].

(** One turn of the [for] loop: the post inside its [try]/[catch], then the
    pause.  Nothing a post does leaves the [catch]. *)
Definition post_one {L : Type} (vcsApiUrl authToken : string)
    (requestBodyBuilder : LLMComment -> jsval) (answer : fetch_result)
    (c : LLMComment) : M L call unit :=
  try_catch
    (let body := requestBodyBuilder c in
     response <- perform (VCS_fetch vcsApiUrl authToken body) (await_fetch answer) ;;
     let '(status, text) := response in
     if negb (response_ok status) then
       errorText <- lift text ;;
       ret tt
     else ret tt)
    (fun _ => ret tt) ;;
  perform (Sleep 200) (Ok tt).

Fixpoint post_all {L : Type} (vcsApiUrl authToken : string)
    (requestBodyBuilder : LLMComment -> jsval) (answers : nat -> fetch_result)
    (i : nat) (cs : list LLMComment) : M L call unit :=
  match cs with
  | [] => ret tt
  | c :: rest =>
      post_one vcsApiUrl authToken requestBodyBuilder (answers i) c ;;
      post_all vcsApiUrl authToken requestBodyBuilder answers (S i) rest
  end.

(** Where and how to post: [vcsApiUrl], [authToken] and
    [requestBodyBuilder], or the error of the last [else]. *)
Definition vcs_target (task : ReviewTask) (env : Env)
    : res (string * string * (LLMComment -> jsval)) :=
  match source task =? "github", pullRequest task,
        source task =? "gitlab", mergeRequest task with
  | true, Some pr, _, _ =>
      Ok (to_string (commentsUrl pr), GITHUB_TOKEN env, github_body pr)
  | _, _, true, Some mr => Ok (notesUrl mr, GITLAB_TOKEN env, gitlab_body mr)
  | _, _, _, _ => Throw (PlainError ("Unsupported VCS: " ++ source task))
  end.

Definition postCommentsToVCS {L : Type} (task : ReviewTask) (comments : list LLMComment)
    (env : Env) (w : World) : M L call unit :=
  match comments with
  | [] => ret tt
  | _ :: _ =>
      target <- lift (vcs_target task env) ;;
      let '(vcsApiUrl, authToken, requestBodyBuilder) := target in
      post_all vcsApiUrl authToken requestBodyBuilder (vcs_fetch w) 0 comments
  end.

(** *** The [queue] handler *)

Definition set_task (t : ReviewTask) : M Locals call unit :=
  fun s => ([], {| reviewOutcome := reviewOutcome s; currentTask := Some t |}, Ok tt).

Definition set_outcome (o : ReviewOutcome) : M Locals call unit :=
  fun s => ([], {| reviewOutcome := Some o; currentTask := currentTask s |}, Ok tt).

(** [task?.pullRequest?.number] and [task?.mergeRequest?.iid] *)
Definition pr_number (t : option ReviewTask) : jsval :=
  match t with
  | Some task => match pullRequest task with Some pr => number pr | None => JUndefined end
  | None => JUndefined
  end.

Definition mr_iid (t : option ReviewTask) : jsval :=
  match t with
  | Some task => match mergeRequest task with Some mr => iid mr | None => JUndefined end
  | None => JUndefined
  end.

(** The key of the [put] of the [try] block (line 120). *)
Definition reviewId (task : ReviewTask) : string :=
  "review:" ++ source task ++ ":" ++ to_string (fullName (repository task)) ++ ":"
  ++ to_string (or_else (pr_number (Some task)) (mr_iid (Some task))) ++ ":"
  ++ eventId task.

(** The key of the [put] of the [catch] block (line 169). *)
Definition errorReviewId (outcome : ReviewOutcome) (currentTask : option ReviewTask)
    (incomingMessageBody : WebhookQueueMessage) : string :=
  let op := originalPayload incomingMessageBody in
  "review:" ++ taskId outcome ++ ":" ++ to_string (out_repository outcome) ++ ":"
  ++ to_string
       (or_else (pr_number currentTask)
          (or_else (mr_iid currentTask)
             (or_else (opt_prop (opt_prop op "pull_request") "number")
                (or_else (opt_prop (opt_prop op "object_attributes") "iid")
                   (JStr "unknown_pr_mr")))))
  ++ ":" ++ taskId outcome.

Definition isErrorRetryable (error : js_error) : bool :=
  match error with
  | RetryableWorkerError _ => true
  | Foreign _ r => r
  | _ => false
  end.

Definition or_default (o : option string) (d : string) : string :=
  match o with
  | Some s => if truthy_str s then s else d
  | None => d
  end.

Definition try_block `{Platform} (message : Message) (env : Env) (w : World)
    : M Locals call unit :=
  let incomingMessageBody := message_body message in
  task <- lift (build_task incomingMessageBody) ;;
  set_task task ;;
  llmResponse <- callLLM task env w ;;
  let outcome := processLLMResponse llmResponse task (now w) in
  set_outcome outcome ;;
  if match isRetryable llmResponse with Some true => true | _ => false end
     && negb (success llmResponse)
  then throw (RetryableWorkerError
                (or_default (error llmResponse) "Retryable LLM error from llmResponse"))
  else
    (if Status_eqb (status outcome) completed && nonempty (out_comments outcome)
     then postCommentsToVCS task
            (match out_comments outcome with Some cs => cs | None => [] end) env w
     else ret tt) ;;
    perform (KV_put (reviewId task) outcome (status outcome) (timestamp outcome))
            (kv_put_try w) ;;
    perform (Ack (message_id message)) (Ok tt).

(** The first branch of the [catch]: a task, but no outcome yet. *)
Definition initial_error_outcome (task : ReviewTask) (error : js_error)
    (timestamp : string) : ReviewOutcome :=
  {| taskId := eventId task; status := failed;
     out_repository := fullName (repository task);
     out_pullRequest := pullRequest task; out_mergeRequest := mergeRequest task;
     out_reviewType := reviewType task;
     out_comments := None; out_summary := JUndefined;
     out_error := Some ("Initial processing error: " ++ error_message error);
     llmRawResponse := JUndefined; timestamp := timestamp |}.

Definition with_error (o : ReviewOutcome) (e : string) : ReviewOutcome :=
  {| taskId := taskId o; status := status o; out_repository := out_repository o;
     out_pullRequest := out_pullRequest o; out_mergeRequest := out_mergeRequest o;
     out_reviewType := out_reviewType o; out_comments := out_comments o;
     out_summary := out_summary o; out_error := Some e;
     llmRawResponse := llmRawResponse o; timestamp := timestamp o |}.

Definition with_status (o : ReviewOutcome) (st : Status) : ReviewOutcome :=
  {| taskId := taskId o; status := st; out_repository := out_repository o;
     out_pullRequest := out_pullRequest o; out_mergeRequest := out_mergeRequest o;
     out_reviewType := out_reviewType o; out_comments := out_comments o;
     out_summary := out_summary o; out_error := out_error o;
     llmRawResponse := llmRawResponse o; timestamp := timestamp o |}.

(** The second branch: the outcome computed before the throw, amended. *)
Definition amended_outcome (o : ReviewOutcome) (error : js_error) : ReviewOutcome :=
  let msg := error_message error in
  let o1 :=
    if negb (match out_error o with Some e => includes e msg | None => false end)
    then with_error o
           (match out_error o with
            | Some e => if truthy_str e then e ++ "; Outer catch: " ++ msg
                        else "Outer catch: " ++ msg
            | None => "Outer catch: " ++ msg
            end)
    else o in
  if isErrorRetryable error && negb (Status_eqb (status o1) failed)
  then with_status o1 failed
  else o1.

(** The third branch: neither a task nor an outcome; the outcome is read off
    the raw payload (lines 149-166). *)
Definition fallback_outcome (incomingMessageBody : WebhookQueueMessage)
    (error : js_error) (timestamp : string) : res ReviewOutcome :=
  let op := originalPayload incomingMessageBody in
  let repository :=
    or_else (opt_prop (opt_prop op "repository") "full_name")
      (or_else (opt_prop (opt_prop op "project") "path_with_namespace")
         (JStr "unknown/repo")) in
  let! pr :=
    if truthy (opt_prop op "pull_request") then
      let! id := Ok op @. "pull_request" @. "id" in
      let! num := Ok op @. "pull_request" @. "number" in
      let! sha := Ok op @. "pull_request" @. "head" @? "sha" in
      let! diff_url := Ok op @. "pull_request" @. "diff_url" in
      let! comments_url := Ok op @. "pull_request" @. "comments_url" in
      Ok (Some {| pr_id := id; number := num; pr_headSha := sha; pr_diffUrl := diff_url;
                  commentsUrl := comments_url |})
    else Ok None in
  let! mr :=
    if truthy (opt_prop op "object_attributes")
       && is_str (opt_prop op "object_kind") "merge_request" then
      let! id := Ok op @. "object_attributes" @. "id" in
      let! iid := Ok op @. "object_attributes" @. "iid" in
      let! project_id := Ok op @. "project" @. "id" in
      let! sha := Ok op @. "object_attributes" @. "last_commit" @? "id" in
      let! web_url := Ok op @. "project" @. "web_url" in
      Ok (Some {| mr_id := id; iid := iid; projectId := project_id; mr_headSha := sha;
                  mr_diffUrl := to_string web_url ++ "/-/merge_requests/"
                                ++ to_string iid ++ "/diffs.json";
                  notesUrl := "https://gitlab.com/api/v4/projects/"
                              ++ to_string project_id ++ "/merge_requests/"
                              ++ to_string iid ++ "/notes" |})
    else Ok None in
  Ok {| taskId := (if truthy_str (msg_eventId incomingMessageBody)
                   then msg_eventId incomingMessageBody else "unknown_event");
        status := failed;
        out_repository := repository;
        out_pullRequest := pr; out_mergeRequest := mr;
        out_reviewType := or_else (msg_reviewType incomingMessageBody) (JStr "general");
        out_comments := None; out_summary := JUndefined;
        out_error := Some ("Critical processing error before task formation: "
                           ++ error_message error);
        llmRawResponse := JUndefined; timestamp := timestamp |}.

Definition catch_block (message : Message) (env : Env) (w : World) (error : js_error)
    : M Locals call unit :=
  let incomingMessageBody := message_body message in
  locals <- read ;;
  outcome <- match reviewOutcome locals, currentTask locals with
             | None, Some task => ret (initial_error_outcome task error (now w))
             | Some o, _ => ret (amended_outcome o error)
             | None, None => lift (fallback_outcome incomingMessageBody error (now w))
             end ;;
  set_outcome outcome ;;
  let key := errorReviewId outcome (currentTask locals) incomingMessageBody in
  try_catch
    (perform (KV_put key outcome (status outcome) (timestamp outcome)) (kv_put_catch w))
    (fun kvError => ret tt) ;;
  if isErrorRetryable error then throw error
  else perform (Ack (message_id message)) (Ok tt).

(** One turn of the loop over [batch.messages]: the calls made and whether
    the turn ends or an error leaves it. *)
Definition process_message `{Platform} (message : Message) (env : Env) (w : World)
    : list call * res unit :=
  let '(calls, _, r) :=
    try_catch (try_block message env w) (catch_block message env w) no_locals in
  (calls, r).

(** The handler: the messages in order, each with the world that answers
    it; an error that leaves a turn leaves the handler. *)
Fixpoint queue `{Platform} (batch : list (Message * World)) (env : Env)
    : list call * res unit :=
  match batch with
  | [] => ([], Ok tt)
  | (message, w) :: rest =>
      match process_message message env w with
      | (calls, Ok _) => let '(calls', r) := queue rest env in ((calls ++ calls')%list, r)
      | (calls, Throw e) => (calls, Throw e)
      end
  end.

End Reviewer.

(* ================================================================== *)
(** ** The specification's wording of the event identifier (section 4.2) *)
(* ================================================================== *)

Module Spec.
Import JS.

(** A derivation rule: the identifier when the rule matches the payload. *)
Definition rule : Type := jsval -> option string.

(** First matching rule wins. *)
Fixpoint first_match (rules : list rule) (payload : jsval) : option string :=
  match rules with
  | [] => None
  | r :: rest =>
      match r payload with
      | Some i => Some i
      | None => first_match rest payload
      end
  end.

Definition field (v : jsval) (k : string) : jsval := opt_prop v k.

Definition or_id (a b : option string) : option string :=
  match a with
  | Some i => Some i
  | None => b
  end.

(** Provider A (1): a pull request with an action and a node id. *)
Definition gh_pull_request_rule : rule := fun p =>
  let pr := field p "pull_request" in
  if truthy pr && truthy (field pr "node_id") && truthy (field p "action") then
    Some ("gh_pr_" ++ to_string (field pr "node_id") ++ "_" ++ to_string (field p "action")
          ++ "_" ++ to_string (or_else (or_else (field (field pr "head") "sha")
                                          (field p "after"))
                                 (JStr "unknown_sha")))
  else None.

(** Provider A (2): a push with ref, after and the repository's id. *)
Definition gh_push_rule : rule := fun p =>
  let repo := field p "repository" in
  if truthy (field p "ref") && truthy (field p "after") && truthy repo
     && truthy (field repo "node_id") then
    Some ("gh_push_" ++ to_string (field repo "node_id") ++ "_" ++ to_string (field p "ref")
          ++ "_" ++ to_string (field p "after"))
  else None.

(** Provider A (3): a comment on an issue. *)
Definition gh_comment_rule : rule := fun p =>
  let c := field p "comment" in
  let i := field p "issue" in
  if truthy c && truthy (field c "node_id") && truthy i && truthy (field i "node_id") then
    Some ("gh_comment_" ++ to_string (field c "node_id") ++ "_on_issue_"
          ++ to_string (field i "node_id"))
  else None.

(** Provider B (2): a merge request with project id, iid and last commit. *)
Definition gl_merge_request_rule : rule := fun p =>
  let proj := field p "project" in
  let oa := field p "object_attributes" in
  let lc := field oa "last_commit" in
  if is_str (field p "object_kind") "merge_request" && truthy proj && truthy (field proj "id")
     && truthy oa && truthy (field oa "iid") && truthy lc && truthy (field lc "id") then
    Some ("gl_mr_" ++ to_string (field proj "id") ++ "_" ++ to_string (field oa "iid") ++ "_"
          ++ to_string (field lc "id"))
  else None.

(** Provider B (3): a push with project id, ref and after. *)
Definition gl_push_rule : rule := fun p =>
  if is_str (field p "object_kind") "push" && truthy (field p "project_id")
     && truthy (field p "ref") && truthy (field p "after") then
    Some ("gl_push_" ++ to_string (field p "project_id") ++ "_" ++ to_string (field p "ref")
          ++ "_" ++ to_string (field p "after"))
  else None.

(** Provider B (4): a note with project id and note id. *)
Definition gl_note_rule : rule := fun p =>
  let proj := field p "project" in
  let oa := field p "object_attributes" in
  if is_str (field p "object_kind") "note" && truthy proj && truthy (field proj "id")
     && truthy oa && truthy (field oa "id") then
    Some ("gl_note_" ++ to_string (field proj "id") ++ "_" ++ to_string (field oa "id"))
  else None.

(** The delivery header of a provider, when it is present. *)
Definition header_rule (pre name : string) (headers : Headers) : option string :=
  match headers_get headers name with
  | Some d => if truthy_str d then Some (pre ++ d) else None
  | None => None
  end.

(** The precedence of section 4.2.  Reading a field of a payload that is
    [null] is the internal exception; it gives the error-prefixed id. *)
Definition identify (uuid source : string) (payload : jsval) (headers : Headers)
    : option string :=
  if source =? "github" then
    if nullish payload then Some ("error_event_id_" ++ uuid)
    else or_id (first_match [gh_pull_request_rule; gh_push_rule; gh_comment_rule] payload)
           (or_id (header_rule "gh_delivery_" "X-GitHub-Delivery" headers)
              (Some ("gh_unknown_" ++ uuid)))
  else if source =? "gitlab" then
    or_id (header_rule "gl_delivery_" "X-Gitlab-Event-UUID" headers)
      (if nullish payload then Some ("error_event_id_" ++ uuid)
       else or_id (first_match [gl_merge_request_rule; gl_push_rule; gl_note_rule] payload)
              (Some ("gl_unknown_" ++ uuid)))
  else None.

End Spec.

(* ================================================================== *)
(** ** The vocabulary of the statements *)
(* ================================================================== *)

Module WebhookSpec.
Import JS Webhook.

Section WithPlatform.
Context `{Platform}.

(** The request reaches the signature check for provider [source]: a POST
    to [/webhook/<source>] with the JSON content type. *)
Definition routed (request : Request) (source : string) : Prop :=
  method request = "POST"
  /\ prefix "/webhook/" (pathname request) = true
  /\ nth_error (split_on "/" (pathname request)) 2 = Some source
  /\ (source = "github" \/ source = "gitlab")
  /\ headers_get (headers request) "content-type" = Some "application/json".

(** The request parses, passes the signature check and yields [eventId]. *)
Definition identified (request : Request) (env : Env) (w : World) (source : string)
    (payload : jsval) (eventId : string) : Prop :=
  routed request source
  /\ JSON_parse (text request) = Ok payload
  /\ verifySignature request env source (text request) = Ok true
  /\ generateEventId (randomUUID w) source payload (headers request) = Ok (Some eventId).

(** What provider A's check accepts: a configured secret, and a header
    whose first field is the algorithm and whose second is the digest. *)
Definition github_accepts (request : Request) (env : Env) (rawBody : string) : Prop :=
  exists h secret,
    headers_get (headers request) "X-Hub-Signature-256" = Some h
    /\ GITHUB_WEBHOOK_SECRET env = Some secret /\ secret <> ""
    /\ nth_error (split_on "=" h) 0 = Some "sha256"
    /\ nth_error (split_on "=" h) 1 = Some (hex_of_bytes (hmac_sha256 secret rawBody)).

(** What provider B's check accepts: the token is the configured secret. *)
Definition gitlab_accepts (request : Request) (env : Env) : Prop :=
  exists t,
    headers_get (headers request) "X-Gitlab-Token" = Some t
    /\ GITLAB_WEBHOOK_SECRET env = Some t /\ t <> "".

End WithPlatform.

Definition dedup_record (w : World) : jsval :=
  JObj [("timestamp", JNum (Date_now w)); ("status", JStr "received")].

Definition queued_task (source eventId : string) (payload : jsval) : jsval :=
  JObj [("source", JStr source); ("eventId", JStr eventId); ("originalPayload", payload)].

Definition already_processed (eventId : string) : Response :=
  jsonResponse (JObj [("message", JStr "Event already processed."); ("eventId", JStr eventId)])
               202.

Definition enqueued (source eventId : string) : Response :=
  jsonResponse
    (JObj [("message",
            JStr ("Webhook from " ++ source ++ " (Event ID: " ++ eventId
                  ++ ") received, validated, and enqueued successfully."));
           ("eventId", JStr eventId)]) 200.

Definition processing_error (e : js_error) : Response :=
  jsonResponse (error_body ("Error processing webhook: " ++ error_message e)) 500.

(** The calls of one invocation: nothing, the lookup, the lookup and the
    record, or the lookup, the record and the task, in this order. *)
Inductive call_shape : list call -> Prop :=
| shape_none : call_shape []
| shape_get id : call_shape [KV_get id]
| shape_put id v : call_shape [KV_get id; KV_put id v 3600]
| shape_send id v source payload :
    call_shape [KV_get id; KV_put id v 3600; Queue_send (queued_task source id payload)].

End WebhookSpec.

Module ReviewerSpec.
Import JS Reviewer.

(** The request [callLLM] sends. *)
Definition llm_request (task : ReviewTask) (env : Env) : call :=
  LLM_fetch (LLM_ENDPOINT env) (LLM_API_KEY env) (model_name env) (build_prompt task).

(** One post and one pause per comment, in the order of the list. *)
Definition posts (url token : string) (builder : LLMComment -> jsval)
    (cs : list LLMComment) : list call :=
  flat_map (fun c => [VCS_fetch url token (builder c); Sleep 200]) cs.

(** What [await callLLM(task, env)] resolves to. *)
Definition llm_answer `{Platform} (task : ReviewTask) (env : Env) (w : World)
    : LLMResponse :=
  match callLLM task env w tt with
  | (_, _, Ok r) => r
  | (_, _, Throw e) => failure (error_message e) JUndefined true
  end.

Definition is_ack (c : call) : bool :=
  match c with
  | Ack _ => true
  | _ => false
  end.

Definition is_put (c : call) : bool :=
  match c with
  | KV_put _ _ _ _ => true
  | _ => false
  end.

Definition acks (calls : list call) : nat := List.length (filter is_ack calls).
Definition puts (calls : list call) : list call := filter is_put calls.

Definition put_keys (calls : list call) : list string :=
  flat_map (fun c => match c with KV_put key _ _ _ => [key] | _ => [] end) calls.

(** The key the [catch] block derives for a message whose task was formed:
    the event id stands where the [try] block has the provider. *)
Definition catch_key (task : ReviewTask) (body : WebhookQueueMessage) : string :=
  let op := originalPayload body in
  "review:" ++ eventId task ++ ":" ++ to_string (fullName (repository task)) ++ ":"
  ++ to_string
       (or_else (pr_number (Some task))
          (or_else (mr_iid (Some task))
             (or_else (opt_prop (opt_prop op "pull_request") "number")
                (or_else (opt_prop (opt_prop op "object_attributes") "iid")
                   (JStr "unknown_pr_mr")))))
  ++ ":" ++ eventId task.

(** A [put] carries its outcome's status and timestamp as metadata, under
    one of the two keys of the message. *)
Definition well_keyed (task : ReviewTask) (body : WebhookQueueMessage) (c : call) : Prop :=
  match c with
  | KV_put key o st ts =>
      st = status o /\ ts = timestamp o
      /\ (key = reviewId task \/ key = catch_key task body)
  | _ => True
  end.

End ReviewerSpec.

(* ================================================================== *)
(** ** A platform and inputs for concrete runs *)
(* ================================================================== *)

Module Sample.
Import JS.

Definition backslash : string := String (ascii_of_nat 92) EmptyString.

(** The text of a JSON string literal. *)
Fixpoint escaped (s : string) : string :=
  match s with
  | EmptyString => EmptyString
  | String c r =>
      if Ascii.eqb c (ascii_of_nat 34) then backslash ++ dquote ++ escaped r
      else String c (escaped r)
  end.

Definition json_string (s : string) : string := dquote ++ escaped s ++ dquote.

(** What the LLM answers in the runs below: one comment on [file.txt]. *)
Definition content_value : jsval :=
  JObj [("success", JBool true);
        ("comments", JArr [JObj [("filePath", JStr "file.txt"); ("lineNumber", JNum 1);
                                 ("comment", JStr "A valid comment.")]]);
        ("summary", JStr "LLM review complete.")].

Definition content_text : string :=
  "{" ++ quoted "success" ++ ":true," ++ quoted "comments" ++ ":[{" ++ quoted "filePath"
  ++ ":" ++ quoted "file.txt" ++ "," ++ quoted "lineNumber" ++ ":1," ++ quoted "comment"
  ++ ":" ++ quoted "A valid comment." ++ "}]," ++ quoted "summary" ++ ":"
  ++ quoted "LLM review complete." ++ "}".

Definition envelope_value : jsval :=
  JObj [("choices", JArr [JObj [("message", JObj [("content", JStr content_text)])]])].

Definition envelope_text : string :=
  "{" ++ quoted "choices" ++ ":[{" ++ quoted "message" ++ ":{" ++ quoted "content" ++ ":"
  ++ json_string content_text ++ "}}]}".

(** [JSON.parse] on the four texts the runs use. *)
Definition sample_parse (s : string) : res jsval :=
  if s =? "null" then Ok JNull
  else if s =? "{}" then Ok (JObj [])
  else if s =? envelope_text then Ok envelope_value
  else if s =? content_text then Ok content_value
  else Throw (SyntaxError "Unexpected token").

(** A stand-in for the MAC: it tells apart any two keys or messages of the
    runs, which is all they need. *)
Definition sample_mac (key msg : string) : list Byte.byte :=
  list_byte_of_string (key ++ ":" ++ msg).

Definition platform : Platform :=
  {| JSON_parse := sample_parse; hmac_sha256 := sample_mac |}.

(** *** The webhook worker *)

Definition secrets : Webhook.Env :=
  {| Webhook.GITHUB_WEBHOOK_SECRET := Some "test-github-secret";
     Webhook.GITLAB_WEBHOOK_SECRET := Some "test-gitlab-secret" |}.

Definition gitlab_request : Webhook.Request :=
  {| Webhook.method := "POST";
     Webhook.pathname := "/webhook/gitlab";
     Webhook.headers := [("content-type", "application/json");
                         ("X-Gitlab-Token", "test-gitlab-secret");
                         ("X-Gitlab-Event-UUID", "test-gitlab-uuid")];
     Webhook.text := "{}" |}.

Definition signature_of (body : string) : string :=
  "sha256=" ++ hex_of_bytes (sample_mac "test-github-secret" body).

Definition github_request (signature : string) : Webhook.Request :=
  {| Webhook.method := "POST";
     Webhook.pathname := "/webhook/github";
     Webhook.headers := [("content-type", "application/json");
                         ("X-Hub-Signature-256", signature);
                         ("X-GitHub-Delivery", "test-delivery-id")];
     Webhook.text := "{}" |}.

(** A world in which the store answers [get] with [stored] and every call
    succeeds, and one in which [put] fails. *)
Definition store_answers (stored : option string) : Webhook.World :=
  {| Webhook.kv_get := fun _ => Ok stored;
     Webhook.kv_put := fun _ => Ok tt;
     Webhook.queue_send := Ok tt;
     Webhook.randomUUID := "00000000-0000-4000-8000-000000000000";
     Webhook.Date_now := 1700000000000 |}.

Definition put_fails : Webhook.World :=
  {| Webhook.kv_get := fun _ => Ok None;
     Webhook.kv_put := fun _ => Throw (Foreign "KV PUT failed: 500" false);
     Webhook.queue_send := Ok tt;
     Webhook.randomUUID := "00000000-0000-4000-8000-000000000000";
     Webhook.Date_now := 1700000000000 |}.

(** The payloads of the repository's own tests of the event id. *)
Definition opened_pull_request : jsval :=
  JObj [("action", JStr "opened");
        ("pull_request",
         JObj [("node_id", JStr "pr_node_id_123"); ("head", JObj [("sha", JStr "sha123")])]);
        ("repository", JObj [("full_name", JStr "test/repo")])].

Definition merge_request_event : jsval :=
  JObj [("object_kind", JStr "merge_request");
        ("project", JObj [("id", JNum 789); ("path_with_namespace", JStr "gitlab/test")]);
        ("object_attributes",
         JObj [("iid", JNum 42); ("last_commit", JObj [("id", JStr "glsha123")])])].

(** *** The reviewer worker *)

Definition reviewer_env : Reviewer.Env :=
  {| Reviewer.LLM_API_KEY := "test_llm_api_key";
     Reviewer.GITHUB_TOKEN := "test_github_token";
     Reviewer.GITLAB_TOKEN := "test_gitlab_token";
     Reviewer.LLM_ENDPOINT := "https://api.openai.com/v1/chat/completions";
     Reviewer.LLM_MODEL_NAME := Some "gpt-test-model" |}.

Definition github_payload : jsval :=
  JObj [("repository",
         JObj [("id", JNum 12345); ("full_name", JStr "test-owner/test-repo");
               ("default_branch", JStr "main")]);
        ("pull_request",
         JObj [("id", JNum 67890); ("number", JNum 123);
               ("head", JObj [("sha", JStr "test-sha")]);
               ("diff_url", JStr "https://github.com/test-owner/test-repo/pull/123.diff");
               ("comments_url",
                JStr "https://api.github.com/repos/test-owner/test-repo/issues/123/comments")])].

Definition body_of (source : string) (payload : jsval) : Reviewer.WebhookQueueMessage :=
  {| Reviewer.msg_source := source;
     Reviewer.msg_eventId := "gh_delivery_with_files";
     Reviewer.originalPayload := payload;
     Reviewer.msg_reviewType := JStr "detailed";
     Reviewer.msg_filesToReview :=
       Some [{| Reviewer.path := JStr "file.txt"; Reviewer.content := JUndefined;
                Reviewer.diff := JStr "-old line +new line" |}] |}.

Definition github_message : Reviewer.Message :=
  {| Reviewer.message_id := "gh-1";
     Reviewer.message_body := body_of "github" github_payload |}.

(** A push-like event: nothing in the payload marks a pull or merge request. *)
Definition bare_message : Reviewer.Message :=
  {| Reviewer.message_id := "gh-2";
     Reviewer.message_body := body_of "github" (JObj []) |}.

(** A merge-request event whose payload has no [project]. *)
Definition projectless_message : Reviewer.Message :=
  {| Reviewer.message_id := "gl-1";
     Reviewer.message_body :=
       {| Reviewer.msg_source := "gitlab";
          Reviewer.msg_eventId := "gl_delivery_1";
          Reviewer.originalPayload :=
            JObj [("object_kind", JStr "merge_request");
                  ("object_attributes", JObj [("iid", JNum 1)])];
          Reviewer.msg_reviewType := JUndefined;
          Reviewer.msg_filesToReview := None |} |}.

(** A world in which the LLM endpoint answers [llm], the VCS API answers
    every post with [vcs], and the store accepts every [put]. *)
Definition answers (llm vcs : Reviewer.fetch_result) : Reviewer.World :=
  {| Reviewer.llm_fetch := llm;
     Reviewer.vcs_fetch := fun _ => vcs;
     Reviewer.kv_put_try := Ok tt;
     Reviewer.kv_put_catch := Ok tt;
     Reviewer.now := "2024-01-01T00:00:00.000Z" |}.

Definition created : Reviewer.fetch_result := Reviewer.HttpResponse 201 (Ok "{}").

Definition server_error : Reviewer.fetch_result :=
  Reviewer.HttpResponse 500 (Ok "Internal Server Error").

Definition a_comment : Reviewer.LLMComment :=
  {| Reviewer.filePath := JStr "file.txt"; Reviewer.lineNumber := JNum 1;
     Reviewer.position := JUndefined; Reviewer.comment := JStr "A valid comment." |}.

Definition another_comment : Reviewer.LLMComment :=
  {| Reviewer.filePath := JStr "main.py"; Reviewer.lineNumber := JNum 7;
     Reviewer.position := JUndefined; Reviewer.comment := JStr "Another comment." |}.

Definition a_repository : Reviewer.Repository :=
  {| Reviewer.fullName := JStr "test-owner/test-repo"; Reviewer.repo_id := JNum 12345;
     Reviewer.defaultBranch := JStr "main" |}.

Definition a_pull_request : Reviewer.PullRequest :=
  {| Reviewer.pr_id := JNum 67890; Reviewer.number := JNum 123;
     Reviewer.pr_headSha := JStr "test-sha";
     Reviewer.pr_diffUrl := JStr "https://github.com/test-owner/test-repo/pull/123.diff";
     Reviewer.commentsUrl :=
       JStr "https://api.github.com/repos/test-owner/test-repo/issues/123/comments" |}.

(** The task of [github_message]; the same task without its pull request;
    and a task of a provider that is not supported. *)
Definition task_of (source : string) (pr : option Reviewer.PullRequest)
    : Reviewer.ReviewTask :=
  {| Reviewer.repository := a_repository;
     Reviewer.pullRequest := pr;
     Reviewer.mergeRequest := None;
     Reviewer.source := source;
     Reviewer.eventId := "gh_delivery_with_files";
     Reviewer.reviewType := JStr "detailed";
     Reviewer.filesToReview :=
       [{| Reviewer.path := JStr "file.txt"; Reviewer.content := JUndefined;
           Reviewer.diff := JStr "-old line +new line" |}] |}.

Definition github_task : Reviewer.ReviewTask := task_of "github" (Some a_pull_request).
Definition github_task_without_pr : Reviewer.ReviewTask := task_of "github" None.
Definition unsupported_task : Reviewer.ReviewTask :=
  task_of "unsupported_vcs" (Some a_pull_request).

End Sample.

(* ================================================================== *)
(** ** Facts about the value layer *)
(* ================================================================== *)

Module JSFacts.
Import JS.
Local Open Scope js_scope.

(** Decoding of the two hexadecimal digits of a byte. *)
Definition unhex_digit (c : ascii) : N :=
  let n := N_of_ascii c in
  if (n <? 58)%N then (n - 48)%N else (n - 87)%N.

Definition unhex_byte (s : string) : option Byte.byte :=
  match s with
  | String h (String l _) => Byte.of_N (unhex_digit h * 16 + unhex_digit l)
  | _ => None
  end.

Fixpoint has_char (c : ascii) (s : string) : bool :=
  match s with
  | EmptyString => false
  | String c' r => Ascii.eqb c' c || has_char c r
  end.

(** [cond r b]: the condition [r] evaluates without throwing, to a value
    whose truthiness is [b]. *)
Definition cond (r : res jsval) (b : bool) : Prop :=
  exists c, r = Ok c /\ truthy c = b.

Lemma truthy_str_true s : truthy_str s = true <-> s <> "".
Proof.
  unfold truthy_str. destruct (String.eqb_spec s ""); simpl; split; intros; congruence.
Qed.

Lemma prop_non_nullish v k : nullish v = false -> prop v k = Ok (opt_prop v k).
Proof. destruct v; simpl; intros; try discriminate; reflexivity. Qed.

Lemma truthy_non_nullish v : truthy v = true -> nullish v = false.
Proof. destruct v; simpl; intros; try discriminate; reflexivity. Qed.

Lemma get_Ok v k : nullish v = false -> Ok v @. k = Ok (opt_prop v k).
Proof. intros Hv. unfold get; simpl. apply prop_non_nullish, Hv. Qed.

Lemma get_opt_Ok v k : Ok v @? k = Ok (opt_prop v k).
Proof. reflexivity. Qed.

Lemma js_and_Ok x b : Ok x &&& b = if truthy x then b else Ok x.
Proof. reflexivity. Qed.

Lemma js_or_Ok x y : Ok x ||| Ok y = Ok (or_else x y).
Proof. unfold js_or, or_else; simpl. destruct (truthy x); reflexivity. Qed.

Lemma cond_Ok v : cond (Ok v) (truthy v).
Proof. exists v; split; reflexivity. Qed.

Lemma cond_and a b ba bb :
  cond a ba -> (ba = true -> cond b bb) -> cond (a &&& b) (ba && bb).
Proof.
  intros (x & -> & Hx) Hb. rewrite js_and_Ok, Hx.
  destruct ba; simpl.
  - apply Hb; reflexivity.
  - exists x; split; [reflexivity | exact Hx].
Qed.

Lemma cond_get v k : nullish v = false -> cond (Ok v @. k) (truthy (opt_prop v k)).
Proof. intros Hv. rewrite get_Ok by exact Hv. apply cond_Ok. Qed.

Lemma cond_get2 v k1 k2 :
  nullish v = false -> truthy (opt_prop v k1) = true ->
  cond (Ok v @. k1 @. k2) (truthy (opt_prop (opt_prop v k1) k2)).
Proof.
  intros Hv H1. rewrite (get_Ok v k1 Hv). apply cond_get, truthy_non_nullish, H1.
Qed.

Lemma cond_get3 v k1 k2 k3 :
  nullish v = false -> truthy (opt_prop v k1) = true ->
  truthy (opt_prop (opt_prop v k1) k2) = true ->
  cond (Ok v @. k1 @. k2 @. k3) (truthy (opt_prop (opt_prop (opt_prop v k1) k2) k3)).
Proof.
  intros Hv H1 H2. rewrite (get_Ok v k1 Hv).
  apply cond_get2; [apply truthy_non_nullish, H1 | exact H2].
Qed.

(** *** The laws of the two monads *)

Lemma rbind_Ok {A B : Type} (a : A) (k : A -> res B) : rbind (Ok a) k = k a.
Proof. reflexivity. Qed.

Lemma rbind_ret {A : Type} (r : res A) : rbind r Ok = r.
Proof. destruct r; reflexivity. Qed.

Lemma rbind_assoc {A B C : Type} (r : res A) (f : A -> res B) (g : B -> res C) :
  rbind (rbind r f) g = rbind r (fun a => rbind (f a) g).
Proof. destruct r; reflexivity. Qed.

Lemma bind_ret_l {S E A B : Type} (a : A) (k : A -> M S E B) (s : S) :
  bind (ret a) k s = k a s.
Proof. unfold bind, ret. destruct (k a s) as [[t s'] r]. reflexivity. Qed.

Lemma bind_ret_r {S E A : Type} (m : M S E A) (s : S) : bind m ret s = m s.
Proof.
  unfold bind, ret. destruct (m s) as [[t s'] [a | e]]; [| reflexivity].
  rewrite app_nil_r. reflexivity.
Qed.

Lemma bind_assoc {S E A B C : Type} (m : M S E A) (f : A -> M S E B) (g : B -> M S E C)
    (s : S) :
  bind (bind m f) g s = bind m (fun a => bind (f a) g) s.
Proof.
  unfold bind. destruct (m s) as [[t s1] [a | e]]; [| reflexivity].
  destruct (f a s1) as [[t2 s2] [b | e]]; [| reflexivity].
  destruct (g b s2) as [[t3 s3] r]. rewrite app_assoc. reflexivity.
Qed.

Lemma try_catch_ret {S E A : Type} (a : A) (h : js_error -> M S E A) (s : S) :
  try_catch (ret a) h s = ret a s.
Proof. reflexivity. Qed.

Lemma try_catch_throw {S E A : Type} (e : js_error) (h : js_error -> M S E A) (s : S) :
  try_catch (throw e) h s = h e s.
Proof. unfold try_catch, throw. destruct (h e s) as [[t s'] r]. reflexivity. Qed.

(** *** Hexadecimal digests *)

Lemma unhex_hex_byte b : unhex_byte (hex_byte b) = Some b.
Proof. destruct b; reflexivity. Qed.

Lemma hex_byte_shape b : exists h l, hex_byte b = String h (String l EmptyString).
Proof. unfold hex_byte. eauto. Qed.

Lemma hex_of_bytes_inj l l' : hex_of_bytes l = hex_of_bytes l' -> l = l'.
Proof.
  revert l'. induction l as [|b r IH]; intros [|b' r'] E; cbn [hex_of_bytes] in E.
  - reflexivity.
  - destruct (hex_byte_shape b') as (h & lo & Hb). rewrite Hb in E. discriminate.
  - destruct (hex_byte_shape b) as (h & lo & Hb). rewrite Hb in E. discriminate.
  - pose proof (unhex_hex_byte b) as U. pose proof (unhex_hex_byte b') as U'.
    destruct (hex_byte_shape b) as (h & lo & Hb).
    destruct (hex_byte_shape b') as (h' & lo' & Hb').
    rewrite Hb in E, U. rewrite Hb' in E, U'. cbn [append] in E.
    injection E as -> -> E. rewrite U in U'. injection U' as ->.
    f_equal. apply IH, E.
Qed.

Lemma split_on_absent sep s : has_char sep s = false -> split_on sep s = [s].
Proof.
  induction s as [|c r IH]; simpl; intros Hs; [reflexivity|].
  apply orb_false_elim in Hs. destruct Hs as [Hc Hr]. rewrite Hc, (IH Hr). reflexivity.
Qed.

Lemma split_on_app sep s t :
  has_char sep s = false ->
  split_on sep (s ++ String sep t) = s :: split_on sep t.
Proof.
  induction s as [|c r IH]; simpl; intros Hs.
  - rewrite Ascii.eqb_refl. reflexivity.
  - apply orb_false_elim in Hs. destruct Hs as [Hc Hr]. rewrite Hc, (IH Hr). reflexivity.
Qed.

Lemma hex_digit_not_eq n : Ascii.eqb (hex_digit n) "="%char = false.
Proof. destruct n as [|p]; [reflexivity|]. do 4 (destruct p; try reflexivity). Qed.

Lemma hex_no_eq l : has_char "=" (hex_of_bytes l) = false.
Proof.
  induction l as [|b r IH]; [reflexivity|]. cbn [hex_of_bytes]. unfold hex_byte.
  cbn [append has_char]. rewrite !hex_digit_not_eq, IH. reflexivity.
Qed.

(** The header in its documented form has exactly two fields. *)
Lemma exact_header_parts l :
  split_on "=" ("sha256=" ++ hex_of_bytes l) = ["sha256"; hex_of_bytes l].
Proof.
  change ("sha256=" ++ hex_of_bytes l) with ("sha256" ++ String "=" (hex_of_bytes l)).
  rewrite split_on_app by reflexivity. rewrite split_on_absent by apply hex_no_eq. reflexivity.
Qed.

(** A header with more fields keeps the same first two. *)
Lemma longer_header_parts l rest :
  exists tail,
    split_on "=" ("sha256=" ++ hex_of_bytes l ++ String "=" rest)
    = "sha256" :: hex_of_bytes l :: tail.
Proof.
  change ("sha256=" ++ hex_of_bytes l ++ String "=" rest)
    with ("sha256" ++ String "=" (hex_of_bytes l ++ String "=" rest)).
  rewrite split_on_app by reflexivity. rewrite split_on_app by apply hex_no_eq. eauto.
Qed.

End JSFacts.

(* ================================================================== *)
(** ** The webhook worker: proofs *)
(* ================================================================== *)

Module WebhookProofs.
Import JS Webhook Spec WebhookSpec JSFacts.
Local Open Scope js_scope.

Ltac split_andb :=
  repeat match goal with
         | H : _ && _ = true |- _ => apply andb_prop in H; destruct H
         end.

Ltac js_get :=
  repeat first
    [ rewrite get_Ok by (assumption || (apply truthy_non_nullish; assumption))
    | rewrite get_opt_Ok
    | rewrite js_or_Ok ].

Ltac js_run := repeat (js_get; cbn [rbind]).

Ltac use_cond H :=
  let c := fresh "c" in let E := fresh "E" in let T := fresh "T" in
  destruct H as (c & E & T); rewrite E; cbn [rbind]; rewrite T; clear c E T.

Ltac matched B :=
  match goal with |- context [if ?b then _ else _] => destruct b eqn:B end;
  [ split_andb; js_run; reflexivity | ].

Ltac conds :=
  repeat apply cond_and; intros; split_andb;
  first [ apply (cond_Ok (JBool _)) | apply cond_get | apply cond_get2 | apply cond_get3 ];
  assumption.

(** *** The event identifier *)

Lemma gh_pr_cond p :
  nullish p = false ->
  cond (Ok p @. "pull_request" &&& Ok p @. "pull_request" @. "node_id" &&& Ok p @. "action")
       (truthy (opt_prop p "pull_request")
        && truthy (opt_prop (opt_prop p "pull_request") "node_id")
        && truthy (opt_prop p "action")).
Proof. intros Hp. conds. Qed.

Lemma gh_push_cond p :
  nullish p = false ->
  cond (Ok p @. "ref" &&& Ok p @. "after" &&& Ok p @. "repository"
        &&& Ok p @. "repository" @. "node_id")
       (truthy (opt_prop p "ref") && truthy (opt_prop p "after")
        && truthy (opt_prop p "repository")
        && truthy (opt_prop (opt_prop p "repository") "node_id")).
Proof. intros Hp. conds. Qed.

Lemma gh_comment_cond p :
  nullish p = false ->
  cond (Ok p @. "comment" &&& Ok p @. "comment" @. "node_id" &&& Ok p @. "issue"
        &&& Ok p @. "issue" @. "node_id")
       (truthy (opt_prop p "comment") && truthy (opt_prop (opt_prop p "comment") "node_id")
        && truthy (opt_prop p "issue") && truthy (opt_prop (opt_prop p "issue") "node_id")).
Proof. intros Hp. conds. Qed.

Lemma gl_mr_cond p :
  nullish p = false ->
  cond (Ok (JBool (is_str (opt_prop p "object_kind") "merge_request")) &&& Ok p @. "project"
        &&& Ok p @. "project" @. "id" &&& Ok p @. "object_attributes"
        &&& Ok p @. "object_attributes" @. "iid"
        &&& Ok p @. "object_attributes" @. "last_commit"
        &&& Ok p @. "object_attributes" @. "last_commit" @. "id")
       (is_str (opt_prop p "object_kind") "merge_request" && truthy (opt_prop p "project")
        && truthy (opt_prop (opt_prop p "project") "id")
        && truthy (opt_prop p "object_attributes")
        && truthy (opt_prop (opt_prop p "object_attributes") "iid")
        && truthy (opt_prop (opt_prop p "object_attributes") "last_commit")
        && truthy (opt_prop (opt_prop (opt_prop p "object_attributes") "last_commit") "id")).
Proof. intros Hp. conds. Qed.

Lemma gl_push_cond p :
  nullish p = false ->
  cond (Ok (JBool (is_str (opt_prop p "object_kind") "push")) &&& Ok p @. "project_id"
        &&& Ok p @. "ref" &&& Ok p @. "after")
       (is_str (opt_prop p "object_kind") "push" && truthy (opt_prop p "project_id")
        && truthy (opt_prop p "ref") && truthy (opt_prop p "after")).
Proof. intros Hp. conds. Qed.

Lemma gl_note_cond p :
  nullish p = false ->
  cond (Ok (JBool (is_str (opt_prop p "object_kind") "note")) &&& Ok p @. "project"
        &&& Ok p @. "project" @. "id" &&& Ok p @. "object_attributes"
        &&& Ok p @. "object_attributes" @. "id")
       (is_str (opt_prop p "object_kind") "note" && truthy (opt_prop p "project")
        && truthy (opt_prop (opt_prop p "project") "id")
        && truthy (opt_prop p "object_attributes")
        && truthy (opt_prop (opt_prop p "object_attributes") "id")).
Proof. intros Hp. conds. Qed.

Lemma github_refines uuid payload headers :
  nullish payload = false ->
  github_event_id uuid payload headers = Ok (identify uuid "github" payload headers).
Proof.
  intros Hp. unfold identify, github_event_id.
  change ("github" =? "github") with true. cbv iota. rewrite Hp.
  unfold first_match, or_id, field.
  use_cond (gh_pr_cond payload Hp). unfold gh_pull_request_rule, field. matched B1.
  use_cond (gh_push_cond payload Hp). unfold gh_push_rule, field. matched B2.
  use_cond (gh_comment_cond payload Hp). unfold gh_comment_rule, field. matched B3.
  unfold header_rule. destruct (headers_get headers "X-GitHub-Delivery") as [d|];
    [destruct (truthy_str d) |]; reflexivity.
Qed.

Lemma gitlab_payload_refines uuid payload :
  nullish payload = false ->
  gitlab_payload_id uuid payload
  = Ok (or_id (first_match [gl_merge_request_rule; gl_push_rule; gl_note_rule] payload)
          (Some ("gl_unknown_" ++ uuid))).
Proof.
  intros Hp. unfold gitlab_payload_id, first_match, or_id.
  rewrite (get_Ok payload "object_kind" Hp). cbn [rbind].
  use_cond (gl_mr_cond payload Hp). unfold gl_merge_request_rule, field. matched B1.
  use_cond (gl_push_cond payload Hp). unfold gl_push_rule, field. matched B2.
  use_cond (gl_note_cond payload Hp). unfold gl_note_rule, field. matched B3.
  reflexivity.
Qed.

Lemma nullish_throws uuid payload :
  nullish payload = true ->
  (exists e, forall headers, github_event_id uuid payload headers = Throw e)
  /\ (exists e, gitlab_payload_id uuid payload = Throw e).
Proof.
  destruct payload; try discriminate; intros _; split; eexists; reflexivity.
Qed.

(** The code computes the identifier of the section 4.2 precedence. *)
Lemma generateEventId_refines uuid source payload headers :
  generateEventId uuid source payload headers = Ok (identify uuid source payload headers).
Proof.
  unfold generateEventId, event_id_try, identify.
  destruct (source =? "github").
  - destruct (nullish payload) eqn:Hp.
    + destruct (nullish_throws uuid payload Hp) as [(e & He) _]. rewrite He. reflexivity.
    + rewrite (github_refines uuid payload headers Hp). unfold identify.
      change ("github" =? "github") with true. cbv iota. rewrite Hp. reflexivity.
  - destruct (source =? "gitlab"); [| reflexivity].
    unfold gitlab_event_id, header_rule, or_id at 1.
    assert (Hpay : rcatch (gitlab_payload_id uuid payload)
                     (fun _ => Ok (Some ("error_event_id_" ++ uuid)))
                   = Ok (if nullish payload then Some ("error_event_id_" ++ uuid)
                         else or_id (first_match [gl_merge_request_rule; gl_push_rule;
                                                  gl_note_rule] payload)
                                (Some ("gl_unknown_" ++ uuid)))).
    { destruct (nullish payload) eqn:Hp.
      - destruct (nullish_throws uuid payload Hp) as [_ (e & He)]. rewrite He. reflexivity.
      - rewrite (gitlab_payload_refines uuid payload Hp). reflexivity. }
    destruct (headers_get headers "X-Gitlab-Event-UUID") as [d|];
      [destruct (truthy_str d) |]; first [reflexivity | exact Hpay].
Qed.

Lemma identify_nonempty uuid source payload headers id :
  identify uuid source payload headers = Some id -> truthy_str id = true.
Proof.
  unfold identify, first_match, or_id, header_rule,
    gh_pull_request_rule, gh_push_rule, gh_comment_rule,
    gl_merge_request_rule, gl_push_rule, gl_note_rule.
  repeat match goal with
         | |- context [if ?b then _ else _] => destruct b
         | |- context [match headers_get ?h ?n with _ => _ end] => destruct (headers_get h n)
         end;
    intros E; try discriminate; injection E as <-; reflexivity.
Qed.

Lemma identify_none uuid source payload headers :
  identify uuid source payload headers = None <-> source <> "github" /\ source <> "gitlab".
Proof.
  split.
  - intros Hnone.
    destruct (String.eqb_spec source "github") as [-> | Hgh];
      [| destruct (String.eqb_spec source "gitlab") as [-> | Hgl]; [| auto]];
      exfalso; revert Hnone; unfold identify, or_id;
      cbn [String.eqb Ascii.eqb Bool.eqb];
      repeat match goal with
             | |- context [match ?x with _ => _ end] => destruct x
             end; discriminate.
  - intros [Hgh Hgl]. unfold identify.
    apply String.eqb_neq in Hgh, Hgl. rewrite Hgh, Hgl. reflexivity.
Qed.


(** *** The signature check *)

Lemma opt_is_true o s : opt_is o s = true <-> o = Some s.
Proof.
  destruct o as [s'|]; simpl; [| split; discriminate].
  destruct (String.eqb_spec s' s); split; intros; congruence.
Qed.

Lemma importKey_truthy s : truthy_str s = true -> importKey s = Ok s.
Proof. unfold importKey, truthy_str. destruct (s =? ""); [discriminate | reflexivity]. Qed.

Section Verify.
Context `{Platform}.

Lemma verifySignature_total request env source rawBody :
  exists b, verifySignature request env source rawBody = Ok b.
Proof.
  unfold verifySignature.
  destruct (source =? "github"); [| destruct (source =? "gitlab")].
  - destruct (headers_get _ _) as [h|]; [| eexists; reflexivity].
    destruct (truthy_str h); cbn [negb]; [| eexists; reflexivity].
    destruct (GITHUB_WEBHOOK_SECRET env) as [secret|]; [| eexists; reflexivity].
    destruct (truthy_str secret) eqn:Hs; cbn [negb]; [| eexists; reflexivity].
    destruct (opt_is _ "sha256"); cbn [negb]; [| eexists; reflexivity].
    rewrite (importKey_truthy secret Hs). cbn [rbind]. eexists; reflexivity.
  - destruct (headers_get _ _) as [t|]; [| eexists; reflexivity].
    destruct (truthy_str t); cbn [negb]; [| eexists; reflexivity].
    destruct (GITLAB_WEBHOOK_SECRET env) as [secret|]; [| eexists; reflexivity].
    destruct (truthy_str secret); cbn [negb]; eexists; reflexivity.
  - eexists; reflexivity.
Qed.

Lemma verifySignature_github request env rawBody :
  verifySignature request env "github" rawBody = Ok true <-> github_accepts request env rawBody.
Proof.
  unfold verifySignature, github_accepts. change ("github" =? "github") with true. cbv iota.
  split.
  - destruct (headers_get _ _) as [h|]; [| discriminate].
    destruct (truthy_str h) eqn:Hh; [| discriminate]; cbn [negb].
    destruct (GITHUB_WEBHOOK_SECRET env) as [secret|]; [| discriminate].
    destruct (truthy_str secret) eqn:Hs; [| discriminate]; cbn [negb].
    destruct (opt_is _ "sha256") eqn:Ha; [| discriminate]; cbn [negb].
    rewrite (importKey_truthy secret Hs). cbn [rbind]. intros E. injection E as E.
    exists h, secret. repeat split; try reflexivity.
    + apply truthy_str_true, Hs.
    + apply opt_is_true, Ha.
    + apply opt_is_true, E.
  - intros (h & secret & -> & -> & Hs & Ha & Hx).
    apply truthy_str_true in Hs.
    assert (Hh : truthy_str h = true).
    { destruct h; [discriminate Ha | reflexivity]. }
    rewrite Hh, Hs. cbn [negb]. rewrite (importKey_truthy secret Hs). cbn [rbind].
    apply opt_is_true in Ha, Hx. rewrite Ha, Hx. reflexivity.
Qed.

Lemma verifySignature_gitlab request env rawBody :
  verifySignature request env "gitlab" rawBody = Ok true <-> gitlab_accepts request env.
Proof.
  unfold verifySignature, gitlab_accepts. change ("gitlab" =? "github") with false.
  change ("gitlab" =? "gitlab") with true. cbv iota.
  split.
  - destruct (headers_get _ _) as [t|]; [| discriminate].
    destruct (truthy_str t) eqn:Ht; [| discriminate]; cbn [negb].
    destruct (GITLAB_WEBHOOK_SECRET env) as [secret|]; [| discriminate].
    destruct (truthy_str secret) eqn:Hs; [| discriminate]; cbn [negb].
    intros E. injection E as E. apply String.eqb_eq in E. subst secret.
    exists t. repeat split. apply truthy_str_true, Ht.
  - intros (t & -> & -> & Ht). apply truthy_str_true in Ht. rewrite Ht. cbn [negb].
    rewrite String.eqb_refl. reflexivity.
Qed.

Lemma verifySignature_other request env source rawBody :
  source <> "github" -> source <> "gitlab" ->
  verifySignature request env source rawBody = Ok false.
Proof.
  intros H1 H2. unfold verifySignature.
  apply String.eqb_neq in H1, H2. rewrite H1, H2. reflexivity.
Qed.

(** Whatever follows the digest in the header is ignored. *)
Lemma trailing_fields_accepted request env rawBody secret rest :
  GITHUB_WEBHOOK_SECRET env = Some secret -> secret <> "" ->
  headers_get (headers request) "X-Hub-Signature-256"
  = Some ("sha256=" ++ hex_of_bytes (hmac_sha256 secret rawBody) ++ String "=" rest) ->
  verifySignature request env "github" rawBody = Ok true.
Proof.
  intros Hsec Hne Hh. apply verifySignature_github.
  destruct (longer_header_parts (hmac_sha256 secret rawBody) rest) as (tail & Hparts).
  eexists _, secret. split; [exact Hh |]. rewrite Hparts. repeat split; assumption.
Qed.

(** C3 (amended). [verifySignature] never throws.  It returns true exactly
    when, for provider A, the secret is configured and the header's first
    [=]-separated field is [sha256] and its second field is the hex
    HMAC-SHA256 of the raw body under the secret (further fields are
    ignored), and for provider B, the token header equals the configured
    secret; so it returns false when the header or the secret is missing,
    the algorithm is another one, or the digest or token differs.  The
    header [sha256=<digest>] is accepted, and a body whose MAC differs from
    the accepted one is rejected under the same header. *)
Theorem verifySignature_contract request env source rawBody :
  (exists b, verifySignature request env source rawBody = Ok b)
  /\ (verifySignature request env source rawBody = Ok true <->
      (source = "github" /\ github_accepts request env rawBody)
      \/ (source = "gitlab" /\ gitlab_accepts request env))
  /\ (forall secret,
        source = "github" -> GITHUB_WEBHOOK_SECRET env = Some secret -> secret <> "" ->
        headers_get (headers request) "X-Hub-Signature-256"
        = Some ("sha256=" ++ hex_of_bytes (hmac_sha256 secret rawBody)) ->
        verifySignature request env source rawBody = Ok true)
  /\ (forall secret rawBody',
        source = "github" -> GITHUB_WEBHOOK_SECRET env = Some secret ->
        verifySignature request env source rawBody = Ok true ->
        hmac_sha256 secret rawBody' <> hmac_sha256 secret rawBody ->
        verifySignature request env source rawBody' = Ok false).
Proof.
  split; [apply verifySignature_total |]. split; [| split].
  - destruct (String.eqb_spec source "github") as [-> | Hgh].
    + rewrite verifySignature_github.
      split; [auto | intros [[_ ?] | [? _]]; [auto | discriminate]].
    + destruct (String.eqb_spec source "gitlab") as [-> | Hgl].
      * rewrite verifySignature_gitlab.
        split; [auto | intros [[? _] | [_ ?]]; [discriminate | auto]].
      * rewrite verifySignature_other by assumption.
        split; [discriminate | intros [[? _] | [? _]]; contradiction].
  - intros secret -> Hsec Hne Hh. apply verifySignature_github.
    exists ("sha256=" ++ hex_of_bytes (hmac_sha256 secret rawBody)), secret.
    rewrite exact_header_parts. repeat split; assumption.
  - intros secret rawBody' -> Hsec Hok Hmac.
    apply verifySignature_github in Hok. destruct Hok as (h & s & Hh & Hs & Hne & Ha & Hx).
    rewrite Hsec in Hs. injection Hs as <-.
    destruct (verifySignature_total request env "github" rawBody') as ([|] & Hb); [| exact Hb].
    apply verifySignature_github in Hb. destruct Hb as (h' & s' & Hh' & Hs' & _ & _ & Hx').
    rewrite Hh in Hh'. injection Hh' as <-. rewrite Hsec in Hs'. injection Hs' as <-.
    rewrite Hx in Hx'. injection Hx' as Hx'. apply hex_of_bytes_inj in Hx'. congruence.
Qed.

End Verify.

(** The signed request of the sample is accepted; the same request with a
    changed body is not. *)
Lemma verifySignature_witness :
  verifySignature (H := Sample.platform) (Sample.github_request (Sample.signature_of "{}"))
    Sample.secrets "github" "{}" = Ok true
  /\ verifySignature (H := Sample.platform)
       (Sample.github_request (Sample.signature_of "{}")) Sample.secrets "github" "{ }"
     = Ok false.
Proof.
  pose proof (@verifySignature_contract Sample.platform
                (Sample.github_request (Sample.signature_of "{}")) Sample.secrets
                "github" "{}") as (_ & _ & Hexact & Hflip).
  assert (Hok : verifySignature (H := Sample.platform)
                  (Sample.github_request (Sample.signature_of "{}")) Sample.secrets
                  "github" "{}" = Ok true).
  { apply (Hexact "test-github-secret"); [reflexivity | reflexivity | discriminate |
                                            reflexivity]. }
  split; [exact Hok |].
  apply (Hflip "test-github-secret" "{ }"); [reflexivity | reflexivity | exact Hok |].
  vm_compute. discriminate.
Defined.

(** The header [sha256=<digest>=anything] is not the documented form, and
    it is accepted. *)
Lemma trailing_fields_counterexample :
  verifySignature (H := Sample.platform)
    (Sample.github_request (Sample.signature_of "{}" ++ "=anything"))
    Sample.secrets "github" "{}" = Ok true
  /\ Sample.signature_of "{}" ++ "=anything"
     <> "sha256=" ++ hex_of_bytes (hmac_sha256 (Platform := Sample.platform)
                                     "test-github-secret" "{}").
Proof.
  split.
  - apply (@trailing_fields_accepted Sample.platform _ _ _ "test-github-secret" "anything");
      [reflexivity | discriminate | reflexivity].
  - apply String.eqb_neq. vm_compute. reflexivity.
Qed.

(** *** The [fetch] handler *)

Section Fetch.
Context `{Platform}.

(** From the dedup lookup on, the handler is decided by the three answers
    of the store and the queue. *)
Lemma fetch_identified request env w source payload eventId :
  identified request env w source payload eventId ->
  fetch request env w
  = match kv_get w eventId with
    | Throw e => ([KV_get eventId], processing_error e)
    | Ok existing =>
        if truthy_opt existing then ([KV_get eventId], already_processed eventId)
        else
          match kv_put w eventId with
          | Throw e =>
              ([KV_get eventId; KV_put eventId (dedup_record w) 3600], processing_error e)
          | Ok _ =>
              match queue_send w with
              | Throw e =>
                  ([KV_get eventId; KV_put eventId (dedup_record w) 3600;
                    Queue_send (queued_task source eventId payload)],
                   processing_error e)
              | Ok _ =>
                  ([KV_get eventId; KV_put eventId (dedup_record w) 3600;
                    Queue_send (queued_task source eventId payload)],
                   enqueued source eventId)
              end
          end
    end.
Proof.
  intros ((Hm & Hp & Hs & Hsrc & Hct) & Hparse & Hsig & Hid).
  assert (Hne : truthy_str eventId = true).
  { rewrite generateEventId_refines in Hid. injection Hid as Hid.
    eapply identify_nonempty, Hid. }
  unfold fetch. rewrite Hm, Hp, Hs, Hct, Hparse.
  assert (Hopt : negb (truthy_opt (Some source))
                 || negb (opt_is (Some source) "github") && negb (opt_is (Some source) "gitlab")
                 = false).
  { destruct Hsrc as [-> | ->]; reflexivity. }
  change ("POST" =? "POST") with true. cbn [negb]. cbv iota.
  rewrite Hopt.
  assert (Hjson : opt_is (Some "application/json") "application/json" = true) by reflexivity.
  rewrite Hjson. cbn [negb].
  unfold process, try_catch, bind, lift, perform, ret.
  rewrite Hsig, Hid. cbn [negb truthy_opt]. rewrite Hne. cbn [negb].
  destruct (kv_get w eventId) as [existing | e]; [| reflexivity].
  destruct (truthy_opt existing); [reflexivity |].
  destruct (kv_put w eventId) as [[] | e]; [| reflexivity].
  destruct (queue_send w) as [[] | e]; reflexivity.
Qed.

(** C1 (amended). For a POST webhook request that passes the signature
    check and yields an event id, if the dedup store's [get] on that id
    returns a truthy value (a string that is not empty), the handler
    answers 202 [Event already processed.] with the event id, and the
    lookup is its only call: no [put], no [send]. *)
Theorem dedup_hit_short_circuits request env w source payload eventId stored :
  identified request env w source payload eventId ->
  kv_get w eventId = Ok (Some stored) -> stored <> "" ->
  fetch request env w = ([KV_get eventId], already_processed eventId).
Proof.
  intros Hid Hget Hne. rewrite (fetch_identified _ _ _ _ _ _ Hid), Hget.
  apply truthy_str_true in Hne. cbn [truthy_opt]. rewrite Hne. reflexivity.
Qed.

(** C2 (amended). For a POST webhook request that passes the signature
    check, yields an event id and misses the dedup store: when the [put]
    and the [send] both succeed, the handler makes exactly the lookup, one
    [put] of the dedup record with a 3600 s expiry and then one [send] of
    [{source, eventId, originalPayload}], and answers 200 with the event
    id; when the [put] fails nothing is sent and the answer is 500; when
    the [send] fails the record stays written and the answer is 500. *)
Theorem dedup_miss_records_then_enqueues request env w source payload eventId :
  identified request env w source payload eventId ->
  kv_get w eventId = Ok None ->
  (kv_put w eventId = Ok tt -> queue_send w = Ok tt ->
   fetch request env w
   = ([KV_get eventId; KV_put eventId (dedup_record w) 3600;
       Queue_send (queued_task source eventId payload)],
      enqueued source eventId))
  /\ (forall e, kv_put w eventId = Throw e ->
      fetch request env w
      = ([KV_get eventId; KV_put eventId (dedup_record w) 3600], processing_error e))
  /\ (forall e, kv_put w eventId = Ok tt -> queue_send w = Throw e ->
      fetch request env w
      = ([KV_get eventId; KV_put eventId (dedup_record w) 3600;
          Queue_send (queued_task source eventId payload)],
         processing_error e)).
Proof.
  intros Hid Hget. rewrite (fetch_identified _ _ _ _ _ _ Hid), Hget. cbn [truthy_opt].
  split; [| split].
  - intros -> ->. reflexivity.
  - intros e ->. reflexivity.
  - intros e -> ->. reflexivity.
Qed.

(** X1. In every invocation the handler makes at most one lookup, one [put]
    and one [send], in this order; a task is sent only after the dedup
    record of its own event id has been written with a 3600 s expiry. *)
Theorem fetch_call_shape request env w : call_shape (fst (fetch request env w)).
Proof.
  unfold fetch.
  destruct (negb (method request =? "POST")); [constructor |].
  destruct (prefix "/webhook/" (pathname request)); [| constructor].
  destruct (_ || _); [constructor |].
  destruct (negb (opt_is _ "application/json")); [constructor |].
  destruct (JSON_parse (text request)) as [payload | e]; [| constructor].
  unfold process, try_catch, bind, lift, perform, ret.
  destruct (verifySignature _ _ _ _) as [[|] | e]; cbn [negb]; try constructor.
  destruct (generateEventId _ _ _ _) as [eventId | e]; try constructor.
  destruct (negb (truthy_opt eventId)); try constructor.
  destruct (kv_get _ _) as [existing | e]; try constructor.
  destruct (truthy_opt existing); try constructor.
  destruct (kv_put _ _) as [[] | e]; try constructor.
  destruct (queue_send w) as [[] | e]; constructor.
Qed.

End Fetch.

(** *** The repository's tests of the handler, run on the model *)

Example pull_request_id uuid :
  generateEventId uuid "github" Sample.opened_pull_request []
  = Ok (Some "gh_pr_pr_node_id_123_opened_sha123").
Proof. reflexivity. Qed.

Example merge_request_id uuid :
  generateEventId uuid "gitlab" Sample.merge_request_event []
  = Ok (Some "gl_mr_789_42_glsha123").
Proof. reflexivity. Qed.

Example event_uuid_comes_first uuid :
  generateEventId uuid "gitlab" Sample.merge_request_event
    [("X-Gitlab-Event-UUID", "definitive-gitlab-uuid")]
  = Ok (Some "gl_delivery_definitive-gitlab-uuid").
Proof. reflexivity. Qed.

Example delivery_id_comes_last uuid :
  generateEventId uuid "github" (JObj [("repository", JObj [("full_name", JStr "test/repo")])])
    [("X-GitHub-Delivery", "definitive-github-delivery-id")]
  = Ok (Some "gh_delivery_definitive-github-delivery-id")
  /\ generateEventId uuid "github" Sample.opened_pull_request
       [("X-GitHub-Delivery", "definitive-github-delivery-id")]
     = Ok (Some "gh_pr_pr_node_id_123_opened_sha123").
Proof. split; reflexivity. Qed.

Example random_fallback uuid :
  generateEventId uuid "github" (JObj []) [] = Ok (Some ("gh_unknown_" ++ uuid))
  /\ generateEventId uuid "github" JNull [] = Ok (Some ("error_event_id_" ++ uuid))
  /\ generateEventId uuid "bitbucket" (JObj []) [] = Ok None.
Proof. repeat split; reflexivity. Qed.

Example method_not_allowed env w :
  fetch (H := Sample.platform)
    {| method := "GET"; pathname := "/webhook/github"; headers := []; text := "" |} env w
  = ([], jsonResponse (error_body "Method Not Allowed") 405).
Proof. reflexivity. Qed.

Example invalid_signature w :
  fetch (H := Sample.platform) (Sample.github_request "sha256=invalidsignature")
    Sample.secrets w
  = ([], jsonResponse (error_body "Invalid signature.") 401)
  /\ fetch (H := Sample.platform) (Sample.github_request "sha1=somehash") Sample.secrets w
     = ([], jsonResponse (error_body "Invalid signature.") 401).
Proof. split; reflexivity. Qed.

Example valid_signature :
  fetch (H := Sample.platform) (Sample.github_request (Sample.signature_of "{}"))
    Sample.secrets (Sample.store_answers None)
  = ([KV_get "gh_delivery_test-delivery-id";
      KV_put "gh_delivery_test-delivery-id" (dedup_record (Sample.store_answers None)) 3600;
      Queue_send (queued_task "github" "gh_delivery_test-delivery-id" (JObj []))],
     enqueued "github" "gh_delivery_test-delivery-id").
Proof. vm_compute. reflexivity. Qed.

Lemma sample_identified stored :
  identified (H := Sample.platform) Sample.gitlab_request Sample.secrets
    (Sample.store_answers stored) "gitlab" (JObj []) "gl_delivery_test-gitlab-uuid".
Proof. repeat split; try reflexivity. right; reflexivity. Qed.

Lemma dedup_hit_witness :
  fetch (H := Sample.platform) Sample.gitlab_request Sample.secrets
    (Sample.store_answers (Some "seen"))
  = ([KV_get "gl_delivery_test-gitlab-uuid"],
     already_processed "gl_delivery_test-gitlab-uuid").
Proof.
  apply (@dedup_hit_short_circuits Sample.platform Sample.gitlab_request Sample.secrets
           (Sample.store_answers (Some "seen")) "gitlab" (JObj [])
           "gl_delivery_test-gitlab-uuid" "seen").
  - apply sample_identified.
  - reflexivity.
  - discriminate.
Defined.

(** The store answers the lookup with the empty string, which is not
    [null]; the handler records and enqueues the event and answers 200. *)
Lemma empty_value_is_not_a_hit :
  identified (H := Sample.platform) Sample.gitlab_request Sample.secrets
    (Sample.store_answers (Some "")) "gitlab" (JObj []) "gl_delivery_test-gitlab-uuid"
  /\ kv_get (Sample.store_answers (Some "")) "gl_delivery_test-gitlab-uuid" = Ok (Some "")
  /\ fetch (H := Sample.platform) Sample.gitlab_request Sample.secrets
       (Sample.store_answers (Some ""))
     = ([KV_get "gl_delivery_test-gitlab-uuid";
         KV_put "gl_delivery_test-gitlab-uuid"
           (dedup_record (Sample.store_answers (Some ""))) 3600;
         Queue_send (queued_task "gitlab" "gl_delivery_test-gitlab-uuid" (JObj []))],
        enqueued "gitlab" "gl_delivery_test-gitlab-uuid").
Proof. split; [apply sample_identified | split; reflexivity]. Qed.

Lemma dedup_miss_witness :
  fetch (H := Sample.platform) Sample.gitlab_request Sample.secrets
    (Sample.store_answers None)
  = ([KV_get "gl_delivery_test-gitlab-uuid";
      KV_put "gl_delivery_test-gitlab-uuid" (dedup_record (Sample.store_answers None)) 3600;
      Queue_send (queued_task "gitlab" "gl_delivery_test-gitlab-uuid" (JObj []))],
     enqueued "gitlab" "gl_delivery_test-gitlab-uuid").
Proof.
  apply (proj1 (@dedup_miss_records_then_enqueues Sample.platform Sample.gitlab_request
                  Sample.secrets (Sample.store_answers None) "gitlab" (JObj [])
                  "gl_delivery_test-gitlab-uuid" (sample_identified None) eq_refl));
    reflexivity.
Defined.

(** The request is verified, identified and misses the store, the [put]
    fails: one [put], no [send], and the answer is 500. *)
Lemma failed_put_stops_the_pipeline :
  identified (H := Sample.platform) Sample.gitlab_request Sample.secrets Sample.put_fails
    "gitlab" (JObj []) "gl_delivery_test-gitlab-uuid"
  /\ kv_get Sample.put_fails "gl_delivery_test-gitlab-uuid" = Ok None
  /\ fetch (H := Sample.platform) Sample.gitlab_request Sample.secrets Sample.put_fails
     = ([KV_get "gl_delivery_test-gitlab-uuid";
         KV_put "gl_delivery_test-gitlab-uuid" (dedup_record Sample.put_fails) 3600],
        jsonResponse (error_body "Error processing webhook: KV PUT failed: 500") 500).
Proof.
  split; [| split; reflexivity].
  repeat split; try reflexivity. right; reflexivity.
Qed.

End WebhookProofs.

(* ================================================================== *)
(** ** The reviewer worker: proofs *)
(* ================================================================== *)

Module ReviewerProofs.
Import JS Reviewer ReviewerSpec JSFacts.
Local Open Scope js_scope.

Definition retry_requested (r : LLMResponse) : bool :=
  match isRetryable r with Some true => true | _ => false end && negb (success r).

(** The calls of the publishing step of the [try] block and how it ends. *)
Definition publish (task : ReviewTask) (o : ReviewOutcome) (env : Env)
    : list call * res unit :=
  if Status_eqb (status o) completed && nonempty (out_comments o) then
    match vcs_target task env with
    | Ok (url, token, builder) =>
        (posts url token builder (match out_comments o with Some cs => cs | None => [] end),
         Ok tt)
    | Throw e => ([], Throw e)
    end
  else ([], Ok tt).

(** How the [catch] block ends once it has its outcome: the [put], then
    either the error again or the acknowledgement. *)
Definition handled (message : Message) (pre : list call) (error : js_error)
    (o : ReviewOutcome) (task : option ReviewTask) : list call * res unit :=
  let put := KV_put (errorReviewId o task (message_body message)) o (status o) (timestamp o) in
  if isErrorRetryable error then ((pre ++ [put])%list, Throw error)
  else ((pre ++ [put; Ack (message_id message)])%list, Ok tt).

(** The turn of the loop, path by path. *)
Definition turn `{Platform} (message : Message) (env : Env) (w : World) : list call * res unit :=
  let body := message_body message in
  match build_task body with
  | Throw e0 =>
      match fallback_outcome body e0 (now w) with
      | Throw e1 => ([], Throw e1)
      | Ok o => handled message [] e0 o None
      end
  | Ok task =>
      let resp := llm_answer task env w in
      let o := processLLMResponse resp task (now w) in
      let pre := [llm_request task env] in
      if retry_requested resp then
        let error := RetryableWorkerError
                       (or_default (error resp) "Retryable LLM error from llmResponse") in
        handled message pre error (amended_outcome o error) (Some task)
      else
        match publish task o env with
        | (pc, Throw e) =>
            handled message (pre ++ pc)%list e (amended_outcome o e) (Some task)
        | (pc, Ok _) =>
            let put := KV_put (reviewId task) o (status o) (timestamp o) in
            match kv_put_try w with
            | Ok _ => ((pre ++ pc ++ [put; Ack (message_id message)])%list, Ok tt)
            | Throw e =>
                handled message (pre ++ pc ++ [put])%list e (amended_outcome o e)
                        (Some task)
            end
        end
  end.

Definition drop_locals {A : Type} (x : list call * Locals * res A) : list call * res A :=
  let '(calls, _, r) := x in (calls, r).

Definition after (pre : list call) {A : Type} (x : list call * res A) : list call * res A :=
  let '(calls, r) := x in ((pre ++ calls)%list, r).

(** The sample pull-request message, the LLM endpoint answering [llm]. *)
Definition github_run (llm : fetch_result) : list call * res unit :=
  process_message (H := Sample.platform) Sample.github_message Sample.reviewer_env
    (Sample.answers llm Sample.created).













Section Consumer.
Context `{Platform}.

Lemma read_content_run {L : Type} text json (s : L) :
  exists r, forall (L' : Type) (s' : L'), read_content text json s' = ([], s', Ok r).
Proof.
  unfold read_content, try_catch, bind, lift, ret.
  destruct (JSON_parse text) as [parsed | e]; [| eexists; reflexivity].
  destruct (prop parsed "success") as [succ | e]; [| eexists; reflexivity].
  destruct succ; eexists; reflexivity.
Qed.

Lemma read_envelope_run text :
  exists r, forall (L' : Type) (s' : L'), read_envelope text s' = ([], s', Ok r).
Proof.
  unfold read_envelope, try_catch, bind, lift, ret.
  destruct (JSON_parse text) as [json | e]; [| eexists; reflexivity].
  destruct (prop json "choices") as [choices | e]; [| eexists; reflexivity].
  destruct (opt_prop (opt_prop (opt_first choices) "message") "content") eqn:E;
    try (eexists; reflexivity).
  destruct (read_content_run s json tt) as (r & Hr). exists r. intros L' s'.
  rewrite Hr. reflexivity.
Qed.

Lemma callLLM_run task env w :
  forall (L : Type) (s : L),
    callLLM task env w s = ([llm_request task env], s, Ok (llm_answer task env w)).
Proof.
  assert (Hex : exists r, forall (L : Type) (s : L),
               callLLM task env w s = ([llm_request task env], s, Ok r)).
  { unfold callLLM, try_catch, bind, lift, perform, ret, llm_request.
    destruct (llm_fetch w) as [e | st txt]; cbn [await_fetch]; [eexists; reflexivity |].
    destruct txt as [txt | e]; [| eexists; reflexivity].
    destruct (negb (response_ok st)); [eexists; reflexivity |].
    destruct (read_envelope_run txt) as (r & Hr). exists r. intros L s.
    rewrite Hr. reflexivity. }
  destruct Hex as (r & Hr). intros L s. rewrite Hr. unfold llm_answer. rewrite Hr. reflexivity.
Qed.

Lemma post_one_run {L : Type} url token builder answer c (s : L) :
  post_one url token builder answer c s
  = ([VCS_fetch url token (builder c); Sleep 200], s, Ok tt).
Proof.
  unfold post_one, try_catch, bind, lift, perform, ret.
  destruct answer as [e | st txt]; cbn [await_fetch]; [reflexivity |].
  destruct (negb (response_ok st)); [| reflexivity].
  destruct txt; reflexivity.
Qed.

Lemma post_all_run {L : Type} url token builder answers cs :
  forall i (s : L),
    post_all url token builder answers i cs s = (posts url token builder cs, s, Ok tt).
Proof.
  induction cs as [|c rest IH]; intros i s; [reflexivity |].
  cbn [post_all]. unfold bind at 1. rewrite post_one_run, IH. reflexivity.
Qed.

Lemma postCommentsToVCS_ok {L : Type} task cs env w url token builder (s : L) :
  vcs_target task env = Ok (url, token, builder) ->
  postCommentsToVCS task cs env w s = (posts url token builder cs, s, Ok tt).
Proof.
  intros Ht. unfold postCommentsToVCS. destruct cs as [|c rest]; [reflexivity |].
  unfold bind, lift. rewrite Ht, post_all_run. reflexivity.
Qed.

Lemma postCommentsToVCS_throw {L : Type} task cs env w e (s : L) :
  cs <> [] -> vcs_target task env = Throw e ->
  postCommentsToVCS task cs env w s = ([], s, Throw e).
Proof.
  intros Hne Ht. unfold postCommentsToVCS. destruct cs as [|c rest]; [contradiction |].
  unfold bind, lift. rewrite Ht. reflexivity.
Qed.


Lemma handled_after message pre error o task :
  handled message pre error o task = after pre (handled message [] error o task).
Proof. unfold handled, after. destruct (isErrorRetryable error); reflexivity. Qed.

Lemma catch_block_with_outcome message env w error o task :
  drop_locals (catch_block message env w error
                 {| reviewOutcome := Some o; currentTask := task |})
  = handled message [] error (amended_outcome o error) task.
Proof.
  unfold catch_block, bind, read, ret, set_outcome, try_catch, perform, throw, handled,
    drop_locals.
  cbn [reviewOutcome currentTask].
  destruct (kv_put_catch w) as [[] | e]; destruct (isErrorRetryable error); reflexivity.
Qed.

Lemma catch_block_without_task message env w error :
  drop_locals (catch_block message env w error no_locals)
  = match fallback_outcome (message_body message) error (now w) with
    | Throw e1 => ([], Throw e1)
    | Ok o => handled message [] error o None
    end.
Proof.
  unfold catch_block, bind, read, ret, lift, set_outcome, try_catch, perform, throw, handled,
    drop_locals, no_locals.
  cbn [reviewOutcome currentTask].
  destruct (fallback_outcome _ _ _) as [o | e1]; [| reflexivity].
  destruct (kv_put_catch w) as [[] | e]; destruct (isErrorRetryable error); reflexivity.
Qed.

Lemma try_block_run message env w :
  try_block message env w no_locals
  = match build_task (message_body message) with
    | Throw e0 => ([], no_locals, Throw e0)
    | Ok task =>
        let resp := llm_answer task env w in
        let o := processLLMResponse resp task (now w) in
        let s1 := {| reviewOutcome := Some o; currentTask := Some task |} in
        if retry_requested resp then
          ([llm_request task env], s1,
           Throw (RetryableWorkerError
                    (or_default (error resp) "Retryable LLM error from llmResponse")))
        else
          match publish task o env with
          | (pc, Throw e) => (llm_request task env :: pc, s1, Throw e)
          | (pc, Ok _) =>
              let put := KV_put (reviewId task) o (status o) (timestamp o) in
              match kv_put_try w with
              | Ok _ => (llm_request task env :: pc ++ [put; Ack (message_id message)], s1,
                         Ok tt)
              | Throw e => (llm_request task env :: pc ++ [put], s1, Throw e)
              end
          end
    end.
Proof.
  unfold try_block. unfold bind at 1, lift at 1.
  destruct (build_task (message_body message)) as [task | e0]; [| reflexivity].
  unfold bind at 1, set_task. cbn [reviewOutcome currentTask no_locals].
  unfold bind at 1. rewrite callLLM_run.
  unfold bind at 1, set_outcome at 1. cbn [reviewOutcome currentTask].
  fold (retry_requested (llm_answer task env w)).
  cbv zeta.
  destruct (retry_requested (llm_answer task env w)); [reflexivity |].
  set (o := processLLMResponse (llm_answer task env w) task (now w)).
  unfold publish, bind, perform, ret.
  destruct (Status_eqb (status o) completed && nonempty (out_comments o)) eqn:Hpub.
  - destruct (vcs_target task env) as [[[url token] builder] | e] eqn:Ht.
    + rewrite (postCommentsToVCS_ok _ _ _ _ _ _ _ _ Ht).
      destruct (kv_put_try w) as [[] | e]; cbn [app]; rewrite ?app_nil_r; reflexivity.
    + assert (Hne : match out_comments o with Some cs => cs | None => [] end <> []).
      { apply andb_prop in Hpub. destruct Hpub as [_ Hne].
        destruct (out_comments o) as [[|c cs] |]; discriminate. }
      rewrite (postCommentsToVCS_throw task _ env w e _ Hne Ht). reflexivity.
  - destruct (kv_put_try w) as [[] | e]; reflexivity.
Qed.

Ltac run_catch lemma :=
  match goal with
  | |- context [catch_block ?m ?env ?w ?e ?s] =>
      let Hc := fresh "Hc" in
      pose proof lemma as Hc;
      destruct (catch_block m env w e s) as [[? ?] ?];
      cbn [drop_locals] in Hc;
      rewrite handled_after; rewrite <- Hc; cbn [after app]; rewrite <- ?app_assoc;
      reflexivity
  end.

Lemma process_message_turn message env w :
  process_message message env w = turn message env w.
Proof.
  unfold process_message, turn, try_catch. rewrite try_block_run.
  destruct (build_task (message_body message)) as [task | e0].
  - cbv zeta.
    destruct (retry_requested (llm_answer task env w)).
    + run_catch (catch_block_with_outcome message env w
                   (RetryableWorkerError
                      (or_default (error (llm_answer task env w))
                         "Retryable LLM error from llmResponse"))
                   (processLLMResponse (llm_answer task env w) task (now w)) (Some task)).
    + destruct (publish task _ env) as [pc [[] | e]].
      * destruct (kv_put_try w) as [[] | e]; [reflexivity |].
        run_catch (catch_block_with_outcome message env w e
                     (processLLMResponse (llm_answer task env w) task (now w)) (Some task)).
      * run_catch (catch_block_with_outcome message env w e
                     (processLLMResponse (llm_answer task env w) task (now w)) (Some task)).
  - pose proof (catch_block_without_task message env w e0) as Hc.
    destruct (catch_block message env w e0 no_locals) as [[t s] r].
    cbn [drop_locals] in Hc. cbn [app]. exact Hc.
Qed.

(** Either the turn ends, with exactly one acknowledgement, after a [put];
    or an error leaves it, with no acknowledgement: a retryable one right
    after the [put] of the [catch] block, any other one because the
    [catch] block itself threw while reading the raw payload. *)
Lemma acks_llm task env l : acks (llm_request task env :: l) = acks l.
Proof. reflexivity. Qed.

Lemma puts_llm task env l : puts (llm_request task env :: l) = puts l.
Proof. reflexivity. Qed.







(** *** callLLM *)

(** C5, at the failing input.  The endpoint answers 2xx with the body
    [null]: the outer body parses, no content is there, and [callLLM]
    reports the failure as retryable. *)
Theorem callLLM_null_envelope task env w st :
  JSON_parse "null" = Ok JNull ->
  llm_fetch w = HttpResponse st (Ok "null") -> response_ok st = true ->
  forall (L : Type) (s : L),
    callLLM task env w s
    = ([llm_request task env], s,
       Ok (failure
             "LLM API response not JSON: Cannot read properties of null (reading 'choices')"
             (JStr "null") true)).
Proof.
  intros Hparse Hfetch Hok L s.
  unfold callLLM, try_catch, bind, lift, perform, ret, read_envelope, try_catch, bind, lift.
  rewrite Hfetch. cbn [await_fetch]. rewrite Hok. cbn [negb]. rewrite Hparse.
  reflexivity.
Qed.






(** *** The consumer on a payload without [project] *)

(** C6, at the failing input.  A merge-request message whose payload has
    no [project]: the task cannot be formed, the [catch] block throws
    while it builds its outcome; nothing is stored, the message is not
    acknowledged and a non-retryable error leaves the handler. *)
Theorem fallback_outcome_throws env w :
  process_message Sample.projectless_message env w
  = ([], Throw (TypeError "Cannot read properties of undefined (reading 'id')")).
Proof. reflexivity. Qed.

(** *** The publisher *)


(** *** The task *)

Lemma build_pullRequest_shape op pr :
  build_pullRequest op = Ok pr ->
  (pr <> None <-> truthy (opt_prop op "pull_request") = true).
Proof.
  unfold build_pullRequest.
  destruct (nullish op) eqn:Hn.
  - destruct op; try discriminate Hn; discriminate.
  - assert (Hp : prop op "pull_request" = Ok (opt_prop op "pull_request")).
    { destruct op; try discriminate Hn; reflexivity. }
    rewrite Hp. cbn [rbind].
    destruct (truthy (opt_prop op "pull_request")) eqn:Ht.
    + intros E. split; [reflexivity |]. intros _ ->.
      assert (Hnn : forall k, prop (opt_prop op "pull_request") k
                              = Ok (opt_prop (opt_prop op "pull_request") k)).
      { intros k. destruct (opt_prop op "pull_request"); try discriminate Ht; reflexivity. }
      unfold get, get_opt, js_or in E. cbn [rbind] in E. rewrite !Hnn in E. cbn [rbind] in E.
      destruct (truthy _) in E; [discriminate E |]. 
      rewrite ?Hnn in E. discriminate E.
    + intros E. injection E as <-. split; [congruence | discriminate].
Qed.


Lemma build_mergeRequest_shape op mr :
  build_mergeRequest op = Ok mr ->
  (mr <> None <-> truthy (opt_prop op "object_attributes") = true
                  /\ is_str (opt_prop op "object_kind") "merge_request" = true).
Proof.
  unfold build_mergeRequest.
  destruct (nullish op) eqn:Hn.
  - destruct op; try discriminate Hn; discriminate.
  - assert (Hp : forall k, prop op k = Ok (opt_prop op k)).
    { intros k. destruct op; try discriminate Hn; reflexivity. }
    rewrite !Hp. cbn [rbind]. unfold js_and. cbn [rbind].
    destruct (truthy (opt_prop op "object_attributes")) eqn:Ht.
    + cbn [truthy].
      destruct (is_str (opt_prop op "object_kind") "merge_request") eqn:Hk.
      * intros E. split; [auto |]. intros _ ->.
        unfold get, get_opt, js_or in E. cbn [rbind truthy] in E.
        repeat match type of E with
               | rbind ?x _ = _ => destruct x; cbn [rbind] in E; [| discriminate E]
               end.
        discriminate E.
      * cbn [truthy]. intros E. injection E as <-.
        split; [congruence | intros [_ ?]; discriminate].
    + cbn [rbind]. rewrite Ht. intros E. injection E as <-.
      split; [congruence | intros [? _]; discriminate].
Qed.

Ltac step_rbind :=
  match goal with
  | |- rbind ?x _ = Ok _ -> _ =>
      let E := fresh "E" in destruct x eqn:E; cbn [rbind]; [| discriminate]
  end.

Lemma build_task_parts body task :
  build_task body = Ok task ->
  build_pullRequest (originalPayload body) = Ok (pullRequest task)
  /\ build_mergeRequest (originalPayload body) = Ok (mergeRequest task)
  /\ source task = msg_source body /\ eventId task = msg_eventId body.
Proof.
  unfold build_task. cbv zeta. do 7 step_rbind.
  intros E'. injection E' as <-. cbn. auto.
Qed.

(** C9 (amended). In the task built from a message, [pullRequest] is
    populated exactly when the payload has a truthy [pull_request], and
    [mergeRequest] exactly when it has a truthy [object_attributes] and
    [object_kind] is [merge_request]; both are decided by the payload alone,
    whatever the provider tag of the message. *)
Theorem populated_by_payload_shape body task :
  build_task body = Ok task ->
  (pullRequest task <> None <-> truthy (opt_prop (originalPayload body) "pull_request") = true)
  /\ (mergeRequest task <> None <->
      truthy (opt_prop (originalPayload body) "object_attributes") = true
      /\ is_str (opt_prop (originalPayload body) "object_kind") "merge_request" = true)
  /\ (forall body' task',
        originalPayload body' = originalPayload body -> build_task body' = Ok task' ->
        pullRequest task' = pullRequest task /\ mergeRequest task' = mergeRequest task).
Proof.
  intros Hb. destruct (build_task_parts body task Hb) as (Hpr & Hmr & _ & _).
  split; [apply build_pullRequest_shape, Hpr |].
  split; [apply build_mergeRequest_shape, Hmr |].
  intros body' task' Hop Hb'.
  destruct (build_task_parts body' task' Hb') as (Hpr' & Hmr' & _ & _).
  rewrite Hop in Hpr', Hmr'. split; congruence.
Qed.

(** C10. For a result with [success] false, the outcome has status
    [error_calling_llm] exactly when [isRetryable] is the boolean false,
    and [failed] when it is true or absent; a result with [success] true
    gives [completed]. *)
Theorem processLLMResponse_status llm task ts :
  (success llm = false ->
   (status (processLLMResponse llm task ts) = error_calling_llm <-> isRetryable llm = Some false)
   /\ (isRetryable llm = Some true \/ isRetryable llm = None ->
       status (processLLMResponse llm task ts) = failed))
  /\ (success llm = true -> status (processLLMResponse llm task ts) = completed).
Proof.
  unfold processLLMResponse. split.
  - intros ->. cbn [negb status]. split.
    + destruct (isRetryable llm) as [[|] |]; split; intros; congruence.
    + intros [-> | ->]; reflexivity.
  - intros ->. reflexivity.
Qed.

End Consumer.


(** *** The repository's tests of the consumer, run on the model *)

Example non_retryable_llm_failure :
  put_keys (fst (github_run (HttpResponse 400 (Ok "Bad Request"))))
  = ["review:github:test-owner/test-repo:123:gh_delivery_with_files"]
  /\ Forall (fun c => match c with
                      | KV_put _ o _ _ => status o = error_calling_llm
                      | _ => True
                      end)
       (fst (github_run (HttpResponse 400 (Ok "Bad Request"))))
  /\ acks (fst (github_run (HttpResponse 400 (Ok "Bad Request")))) = 1
  /\ snd (github_run (HttpResponse 400 (Ok "Bad Request"))) = Ok tt.
Proof. repeat split; vm_compute; repeat constructor. Qed.

Example unsupported_source_is_acknowledged :
  let run :=
    process_message (H := Sample.platform)
      {| message_id := "unsupported-1";
         message_body := Sample.body_of "unsupported_vcs" Sample.github_payload |}
      Sample.reviewer_env
      (Sample.answers (HttpResponse 200 (Ok Sample.envelope_text)) Sample.created) in
  put_keys (fst run)
  = ["review:gh_delivery_with_files:test-owner/test-repo:123:gh_delivery_with_files"]
  /\ Forall (fun c => match c with
                      | KV_put _ o _ _ =>
                          status o = completed
                          /\ out_error o
                             = Some "Outer catch: Unsupported VCS: unsupported_vcs"
                      | _ => True
                      end) (fst run)
  /\ acks (fst run) = 1 /\ snd run = Ok tt.
Proof. cbv zeta. repeat split; vm_compute; repeat constructor. Qed.

Lemma sample_task_built :
  build_task (message_body Sample.github_message) = Ok Sample.github_task.
Proof. reflexivity. Qed.

Lemma callLLM_null_envelope_witness :
  callLLM (H := Sample.platform) Sample.github_task Sample.reviewer_env
    (Sample.answers (HttpResponse 200 (Ok "null")) Sample.created) tt
  = ([llm_request Sample.github_task Sample.reviewer_env], tt,
     Ok (failure
           "LLM API response not JSON: Cannot read properties of null (reading 'choices')"
           (JStr "null") true)).
Proof.
  apply (@callLLM_null_envelope Sample.platform Sample.github_task Sample.reviewer_env
           (Sample.answers (HttpResponse 200 (Ok "null")) Sample.created) 200);
    reflexivity.
Defined.




Lemma populated_witness :
  (pullRequest Sample.github_task <> None
   <-> truthy (opt_prop (originalPayload (message_body Sample.github_message))
                 "pull_request") = true)
  /\ (mergeRequest Sample.github_task <> None
      <-> truthy (opt_prop (originalPayload (message_body Sample.github_message))
                    "object_attributes") = true
          /\ is_str (opt_prop (originalPayload (message_body Sample.github_message))
                       "object_kind") "merge_request" = true)
  /\ (forall body' task',
        originalPayload body' = originalPayload (message_body Sample.github_message) ->
        build_task body' = Ok task' ->
        pullRequest task' = pullRequest Sample.github_task
        /\ mergeRequest task' = mergeRequest Sample.github_task).
Proof.
  apply (populated_by_payload_shape (message_body Sample.github_message) Sample.github_task).
  reflexivity.
Defined.

(** A message tagged [github] whose payload marks neither kind of request
    gets neither field; a message tagged [gitlab] whose payload has a
    [pull_request] gets [pullRequest]. *)
Lemma populated_counterexample :
  (exists task,
      build_task (message_body Sample.bare_message) = Ok task
      /\ source task = "github" /\ pullRequest task = None /\ mergeRequest task = None)
  /\ (exists task,
         build_task (Sample.body_of "gitlab" Sample.github_payload) = Ok task
         /\ source task = "gitlab" /\ pullRequest task = Some Sample.a_pull_request
         /\ mergeRequest task = None).
Proof. split; eexists; repeat split; reflexivity. Qed.

End ReviewerProofs.

(* ================================================================== *)
(** ** The webhook worker: the rest of the handler *)
(* ================================================================== *)

Module WebhookCoverage.
Import JS Webhook Spec WebhookSpec JSFacts WebhookProofs.
Local Open Scope js_scope.


(** [JSON.stringify] of an object whose values are numbers and strings
    without characters to escape, as the dedup record is. *)
(** [JSON.stringify({ timestamp: Date.now(), status: 'received' })], the
    text the store holds for the record of [w]. *)
Definition stored_text (w : World) : string :=
  "{" ++ quoted "timestamp" ++ ":" ++ string_of_Z (Date_now w) ++ ","
  ++ quoted "status" ++ ":" ++ quoted "received" ++ "}".

Definition sends (calls : list call) : list call :=
  filter (fun c => match c with Queue_send _ => true | _ => false end) calls.

Definition is_hex_digit (c : ascii) : bool :=
  let n := nat_of_ascii c in
  ((48 <=? n) && (n <=? 57) || (97 <=? n) && (n <=? 102))%nat.

Fixpoint all_chars (p : ascii -> bool) (s : string) : bool :=
  match s with
  | EmptyString => true
  | String c r => p c && all_chars p r
  end.

Section Handler.
Context `{Platform}.

Lemma source_checked (source : option string) :
  negb (truthy_opt source)
  || negb (opt_is source "github") && negb (opt_is source "gitlab") = false ->
  source = Some "github" \/ source = Some "gitlab".
Proof.
  destruct source as [s |]; [| discriminate]. cbn [opt_is].
  destruct (String.eqb_spec s "github") as [-> | ?]; [auto |].
  destruct (String.eqb_spec s "gitlab") as [-> | ?]; [auto |].
  rewrite orb_true_r. discriminate.
Qed.

Lemma event_id_found uuid source payload headers :
  source = "github" \/ source = "gitlab" ->
  exists id, generateEventId uuid source payload headers = Ok (Some id)
             /\ truthy_str id = true.
Proof.
  intros Hs. rewrite generateEventId_refines.
  destruct (identify uuid source payload headers) as [id |] eqn:Hid.
  - exists id. split; [reflexivity | eapply identify_nonempty, Hid].
  - apply identify_none in Hid. destruct Hid, Hs; contradiction.
Qed.


(** X5. A 400 is answered for one of three reasons: the provider in the
    path, the content type, or a body that is not JSON; and no call has been
    made.  The answer that no event id could be determined is never given:
    once the provider is one of the two, an id is always found. *)
Theorem fetch_bad_request_reasons request env w :
  status (snd (fetch request env w)) = 400%Z ->
  exists msg,
    body (snd (fetch request env w)) = error_body msg
    /\ fst (fetch request env w) = []
    /\ (msg = "Invalid source. Must be " ++ quoted "github" ++ " or " ++ quoted "gitlab" ++ "."
        \/ msg = "Invalid content type. Must be application/json."
        \/ exists reason, msg = "Invalid JSON payload. " ++ reason).
Proof.
  unfold fetch.
  destruct (negb (method request =? "POST")); [discriminate |].
  destruct (prefix "/webhook/" (pathname request)); [| discriminate].
  destruct (_ || _) eqn:Hsrc; [intros _; eexists; cbn; eauto |].
  destruct (negb (opt_is _ "application/json")); [intros _; eexists; cbn; eauto |].
  destruct (JSON_parse (text request)) as [payload | e];
    [| intros _; eexists; cbn; eauto 6].
  apply source_checked in Hsrc.
  assert (Hs : match nth_error (split_on "/" (pathname request)) 2 with
               | Some s => s
               | None => ""
               end = "github"
               \/ match nth_error (split_on "/" (pathname request)) 2 with
                  | Some s => s
                  | None => ""
                  end = "gitlab").
  { destruct Hsrc as [-> | ->]; auto. }
  unfold process, try_catch, bind, lift, perform, ret.
  destruct (verifySignature_total request env
              match nth_error (split_on "/" (pathname request)) 2 with
              | Some s => s
              | None => ""
              end (text request)) as (b & ->).
  destruct b; cbn [negb]; [| discriminate].
  destruct (event_id_found (randomUUID w) _ payload (headers request) Hs) as (id & -> & Hid).
  cbn [truthy_opt]. rewrite Hid. cbn [negb].
  destruct (kv_get _ _) as [existing | e]; [| discriminate].
  destruct (truthy_opt existing); [discriminate |].
  destruct (kv_put _ _) as [[] | e]; [| discriminate].
  destruct (queue_send w) as [[] | e]; discriminate.
Qed.

(** X6. Of the path the handler reads whether it starts with [/webhook/]
    and its third segment: what follows the provider in the path is
    ignored. *)
Theorem trailing_path_is_ignored request request' env w :
  method request = method request' ->
  headers request = headers request' ->
  text request = text request' ->
  prefix "/webhook/" (pathname request) = prefix "/webhook/" (pathname request') ->
  nth_error (split_on "/" (pathname request)) 2
  = nth_error (split_on "/" (pathname request')) 2 ->
  fetch request env w = fetch request' env w.
Proof.
  destruct request as [m p h t], request' as [m' p' h' t'].
  cbn [method headers text pathname]. intros -> -> -> Hpre Hseg.
  unfold fetch, process, verifySignature. cbn [method headers text pathname].
  rewrite Hpre, Hseg. reflexivity.
Qed.

(** X7. A delivery that comes again once the record of its first handling
    is visible in the store: the text that was stored counts as a hit, the
    answer is 202 and nothing is sent, so the two invocations send at most
    one task. *)
Theorem redelivery_is_deduplicated request env w1 w2 source payload id :
  identified request env w1 source payload id ->
  identified request env w2 source payload id ->
  kv_get w2 id = Ok (Some (stored_text w1)) ->
  fetch request env w2 = ([KV_get id], already_processed id)
  /\ sends (fst (fetch request env w1) ++ fst (fetch request env w2))
     = sends (fst (fetch request env w1))
  /\ (List.length (sends (fst (fetch request env w1))) <= 1)%nat.
Proof.
  intros H1 H2 Hget.
  assert (E2 : fetch request env w2 = ([KV_get id], already_processed id)).
  { rewrite (fetch_identified _ _ _ _ _ _ H2), Hget. reflexivity. }
  split; [exact E2 |]. rewrite E2.
  rewrite (fetch_identified _ _ _ _ _ _ H1).
  destruct (kv_get w1 id) as [existing | e]; [| repeat split; simpl; lia].
  destruct (truthy_opt existing); [repeat split; simpl; lia |].
  destruct (kv_put w1 id) as [[] | e]; [| repeat split; simpl; lia].
  destruct (queue_send w1) as [[] | e]; repeat split; simpl; lia.
Qed.

Lemma all_chars_app p a b :
  all_chars p (a ++ b) = all_chars p a && all_chars p b.
Proof.
  induction a as [|c r IH]; [reflexivity |].
  cbn [append all_chars]. rewrite IH, andb_assoc. reflexivity.
Qed.

Lemma hex_byte_chars b : all_chars is_hex_digit (hex_byte b) = true.
Proof. destruct b; reflexivity. Qed.

Lemma hex_of_bytes_chars l : all_chars is_hex_digit (hex_of_bytes l) = true.
Proof.
  induction l as [|b r IH]; [reflexivity |].
  cbn [hex_of_bytes]. rewrite all_chars_app, hex_byte_chars, IH. reflexivity.
Qed.

Lemma hex_of_bytes_length l : String.length (hex_of_bytes l) = 2 * List.length l.
Proof.
  induction l as [|b r IH]; [reflexivity |].
  cbn [hex_of_bytes]. destruct (hex_byte_shape b) as (h & lo & ->).
  cbn [append String.length List.length]. rewrite IH. lia.
Qed.

(** X8. The digest an accepted header of provider A carries: two
    lowercase hexadecimal digits for each byte of the MAC (the comparison is
    exact, so a digest in upper case is refused). *)
Theorem accepted_digest_is_lowercase_hex request env rawBody :
  verifySignature request env "github" rawBody = Ok true ->
  exists h secret digest,
    headers_get (headers request) "X-Hub-Signature-256" = Some h
    /\ GITHUB_WEBHOOK_SECRET env = Some secret
    /\ nth_error (split_on "=" h) 1 = Some digest
    /\ String.length digest = 2 * List.length (hmac_sha256 secret rawBody)
    /\ all_chars is_hex_digit digest = true.
Proof.
  intros Hv. apply verifySignature_github in Hv.
  destruct Hv as (h & secret & Hh & Hs & _ & _ & Hd).
  exists h, secret, (hex_of_bytes (hmac_sha256 secret rawBody)).
  repeat split; try assumption; [apply hex_of_bytes_length | apply hex_of_bytes_chars].
Qed.

End Handler.

(** *** The event identifier *)

(** X9. An event id is never empty and tells its provider: it starts with
    [gh_] for provider A and with [gl_] for provider B, unless it is the
    [error_event_id_] id of a derivation that threw. *)
Theorem event_id_namespace uuid source payload headers id :
  generateEventId uuid source payload headers = Ok (Some id) ->
  id <> ""
  /\ (source = "github" /\ (prefix "gh_" id = true \/ id = "error_event_id_" ++ uuid)
      \/ source = "gitlab" /\ (prefix "gl_" id = true \/ id = "error_event_id_" ++ uuid)).
Proof.
  rewrite generateEventId_refines. intros E. injection E as E. split.
  - apply truthy_str_true. eapply identify_nonempty, E.
  - revert E.
    unfold identify, first_match, or_id, header_rule,
      gh_pull_request_rule, gh_push_rule, gh_comment_rule,
      gl_merge_request_rule, gl_push_rule, gl_note_rule.
    destruct (String.eqb_spec source "github") as [-> | Hgh];
      [| destruct (String.eqb_spec source "gitlab") as [-> | Hgl]; [| discriminate]];
      repeat match goal with
             | |- context [if ?b then _ else _] => destruct b
             | |- context [match headers_get ?h ?n with _ => _ end] =>
                 destruct (headers_get h n)
             end;
      intros E; try discriminate; injection E as <-;
      first [ left; split; [reflexivity |]; first [left; reflexivity | right; reflexivity]
            | right; split; [reflexivity |]; first [left; reflexivity | right; reflexivity] ].
Qed.

(** X10. The random UUID enters an event id only in the three fallbacks
    ([gh_unknown_], [gl_unknown_], [error_event_id_]); every other id is a
    function of the provider, the payload and the headers, so that a
    delivery that is repeated gets the same id. *)
Theorem random_ids_are_fallbacks source payload headers :
  (exists r, forall uuid, generateEventId uuid source payload headers = Ok r)
  \/ (exists pre,
        In pre ["gh_unknown_"; "gl_unknown_"; "error_event_id_"]
        /\ forall uuid, generateEventId uuid source payload headers = Ok (Some (pre ++ uuid))).
Proof.
  assert (Hid : (exists r, forall uuid, identify uuid source payload headers = r)
                \/ (exists pre,
                      In pre ["gh_unknown_"; "gl_unknown_"; "error_event_id_"]
                      /\ forall uuid,
                          identify uuid source payload headers = Some (pre ++ uuid))).
  { unfold identify, first_match, or_id, header_rule.
    repeat match goal with
           | |- context [if ?b then _ else _] => destruct b
           | |- context [match ?x with Some _ => _ | None => _ end] => destruct x
           end;
      first [ left; eexists; intros; reflexivity
            | right; eexists; split; [| intros; reflexivity]; simpl; auto ]. }
  destruct Hid as [(r & Hr) | (pre & Hin & Hr)].
  - left. exists r. intros uuid. rewrite generateEventId_refines, Hr. reflexivity.
  - right. exists pre. split; [exact Hin |]. intros uuid.
    rewrite generateEventId_refines, Hr. reflexivity.
Qed.

Lemma trailing_path_witness :
  fetch (H := Sample.platform) Sample.gitlab_request Sample.secrets
    (Sample.store_answers None)
  = fetch (H := Sample.platform)
      {| method := "POST"; pathname := "/webhook/gitlab/anything/else";
         headers := headers Sample.gitlab_request; text := "{}" |}
      Sample.secrets (Sample.store_answers None).
Proof.
  apply (@trailing_path_is_ignored Sample.platform Sample.gitlab_request
           {| method := "POST"; pathname := "/webhook/gitlab/anything/else";
              headers := headers Sample.gitlab_request; text := "{}" |}
           Sample.secrets (Sample.store_answers None));
    reflexivity.
Defined.

Lemma redelivery_witness :
  fetch (H := Sample.platform) Sample.gitlab_request Sample.secrets
    (Sample.store_answers (Some (stored_text (Sample.store_answers None))))
  = ([KV_get "gl_delivery_test-gitlab-uuid"],
     already_processed "gl_delivery_test-gitlab-uuid").
Proof.
  apply (proj1 (@redelivery_is_deduplicated Sample.platform Sample.gitlab_request
                  Sample.secrets (Sample.store_answers None)
                  (Sample.store_answers (Some (stored_text (Sample.store_answers None))))
                  "gitlab" (JObj []) "gl_delivery_test-gitlab-uuid"
                  (sample_identified None) (sample_identified _) eq_refl)).
Defined.

Lemma accepted_digest_witness :
  exists h secret digest,
    headers_get (headers (Sample.github_request (Sample.signature_of "{}")))
      "X-Hub-Signature-256" = Some h
    /\ GITHUB_WEBHOOK_SECRET Sample.secrets = Some secret
    /\ nth_error (split_on "=" h) 1 = Some digest
    /\ String.length digest
       = 2 * List.length (hmac_sha256 (Platform := Sample.platform) secret "{}")
    /\ all_chars is_hex_digit digest = true.
Proof.
  apply (@accepted_digest_is_lowercase_hex Sample.platform
           (Sample.github_request (Sample.signature_of "{}")) Sample.secrets "{}").
  vm_compute. reflexivity.
Defined.

Lemma event_id_namespace_witness :
  "gh_pr_pr_node_id_123_opened_sha123" <> ""
  /\ ("github" = "github"
      /\ (prefix "gh_" "gh_pr_pr_node_id_123_opened_sha123" = true
          \/ "gh_pr_pr_node_id_123_opened_sha123" = "error_event_id_" ++ "u")
      \/ "github" = "gitlab"
         /\ (prefix "gl_" "gh_pr_pr_node_id_123_opened_sha123" = true
             \/ "gh_pr_pr_node_id_123_opened_sha123" = "error_event_id_" ++ "u")).
Proof.
  apply (event_id_namespace "u" "github" Sample.opened_pull_request []
           "gh_pr_pr_node_id_123_opened_sha123").
  reflexivity.
Defined.

Lemma fetch_bad_request_witness :
  exists msg,
    body (snd (fetch (H := Sample.platform)
                 {| method := "POST"; pathname := "/webhook/bitbucket";
                    headers := []; text := "{}" |}
                 Sample.secrets (Sample.store_answers None)))
    = error_body msg
    /\ fst (fetch (H := Sample.platform)
              {| method := "POST"; pathname := "/webhook/bitbucket";
                 headers := []; text := "{}" |}
              Sample.secrets (Sample.store_answers None)) = []
    /\ (msg = "Invalid source. Must be " ++ quoted "github" ++ " or " ++ quoted "gitlab" ++ "."
        \/ msg = "Invalid content type. Must be application/json."
        \/ exists reason, msg = "Invalid JSON payload. " ++ reason).
Proof.
  apply (@fetch_bad_request_reasons Sample.platform
           {| method := "POST"; pathname := "/webhook/bitbucket"; headers := []; text := "{}" |}
           Sample.secrets (Sample.store_answers None)).
  reflexivity.
Defined.

End WebhookCoverage.

(* ================================================================== *)
(** ** The reviewer worker: the rest of the consumer *)
(* ================================================================== *)

Module ReviewerCoverage.
Import JS Reviewer ReviewerSpec JSFacts ReviewerProofs.
Local Open Scope js_scope.

(** The messages acknowledged, in order. *)
Definition ack_ids (calls : list call) : list string :=
  flat_map (fun c => match c with Ack id => [id] | _ => [] end) calls.


Definition ids (batch : list (Message * World)) : list string :=
  map (fun mw => message_id (fst mw)) batch.


(** [eventId || 'unknown_event'] *)
Definition fallback_id (body : WebhookQueueMessage) : string :=
  if truthy_str (msg_eventId body) then msg_eventId body else "unknown_event".

(** The payload marks a merge request. *)
Definition merge_request_marker (op : jsval) : bool :=
  truthy (opt_prop op "object_attributes")
  && is_str (opt_prop op "object_kind") "merge_request".

(** *** Strings *)


Lemma prefix_app a b : prefix a (a ++ b) = true.
Proof.
  induction a as [|c r IH]; [destruct b; reflexivity |].
  cbn [append prefix]. destruct (ascii_dec c c); [exact IH | contradiction].
Qed.



(** *** Acknowledgements *)

Lemma ack_ids_app a b : ack_ids (a ++ b) = (ack_ids a ++ ack_ids b)%list.
Proof. apply flat_map_app. Qed.

Lemma ack_ids_posts url token builder cs : ack_ids (posts url token builder cs) = [].
Proof. induction cs as [|c r IH]; [reflexivity | exact IH]. Qed.



Lemma publish_ack_ids task o env : ack_ids (fst (publish task o env)) = [].
Proof.
  unfold publish. destruct (_ && _); [| reflexivity].
  destruct (vcs_target task env) as [[[url token] builder] | e]; [| reflexivity].
  apply ack_ids_posts.
Qed.

Lemma handled_ack_ids message pre error o task :
  ack_ids pre = [] ->
  match handled message pre error o task with
  | (calls, Ok _) => ack_ids calls = [message_id message]
  | (calls, Throw _) => ack_ids calls = []
  end.
Proof.
  intros Hpre. unfold handled. destruct (isErrorRetryable error);
    rewrite ack_ids_app, Hpre; reflexivity.
Qed.

Section Consumer.
Context `{Platform}.

Lemma turn_ack_ids message env w :
  match process_message message env w with
  | (calls, Ok _) => ack_ids calls = [message_id message]
  | (calls, Throw _) => ack_ids calls = []
  end.
Proof.
  rewrite process_message_turn. unfold turn.
  destruct (build_task (message_body message)) as [task | e0].
  - cbv zeta. destruct (retry_requested _); [apply handled_ack_ids; reflexivity |].
    pose proof (publish_ack_ids task
                  (processLLMResponse (llm_answer task env w) task (now w)) env) as Hp.
    destruct (publish task _ env) as [pc [[] | e]]; cbn [fst] in Hp.
    + destruct (kv_put_try w) as [[] | e].
      * rewrite !ack_ids_app, Hp. reflexivity.
      * apply handled_ack_ids. rewrite !ack_ids_app, Hp. reflexivity.
    + apply handled_ack_ids. rewrite !ack_ids_app, Hp. reflexivity.
  - destruct (fallback_outcome _ _ _) as [o | e1]; [| reflexivity].
    apply handled_ack_ids. reflexivity.
Qed.

(** X11. The batch: the messages acknowledged are the first [n] of the
    batch, in order; the handler returns exactly when that is all of them,
    and nothing is done for a message that comes after the one whose error
    leaves the handler. *)
Theorem queue_acknowledges_a_prefix batch env :
  exists n,
    n <= List.length batch
    /\ ack_ids (fst (queue batch env)) = ids (firstn n batch)
    /\ (snd (queue batch env) = Ok tt <-> n = List.length batch)
    /\ queue batch env = queue (firstn (S n) batch) env.
Proof.
  induction batch as [|[message w] rest IH].
  - exists 0. repeat split; reflexivity.
  - pose proof (turn_ack_ids message env w) as Hturn.
    destruct (process_message message env w) as [calls [[] | e]] eqn:Hpm.
    + destruct IH as (n & Hn & Hacks & Hres & Hcut). exists (S n).
      change (firstn (S (S n)) ((message, w) :: rest))
        with ((message, w) :: firstn (S n) rest).
      change (firstn (S n) ((message, w) :: rest)) with ((message, w) :: firstn n rest).
      cbn [queue List.length]. rewrite Hpm, <- Hcut.
      destruct (queue rest env) as [calls' r']. cbn [fst snd] in *.
      split; [lia |]. split; [| split].
      * rewrite ack_ids_app, Hturn, Hacks. reflexivity.
      * rewrite Hres. lia.
      * reflexivity.
    + exists 0.
      change (firstn 1 ((message, w) :: rest)) with [(message, w)].
      cbn [queue firstn List.length]. rewrite Hpm. cbn [fst snd].
      split; [lia |]. split; [exact Hturn |]. split; [split; [discriminate | lia] |].
      reflexivity.
Qed.

(** *** What the turn depends on *)

Lemma llm_answer_depends task env w w' :
  llm_fetch w = llm_fetch w' -> llm_answer task env w = llm_answer task env w'.
Proof.
  intros Hllm. unfold llm_answer, callLLM, try_catch, bind, lift, perform, ret.
  rewrite Hllm. reflexivity.
Qed.

(** X12. The answers of the VCS API to the posts and the answer of the
    store to the [put] of the [catch] block change neither the calls of the
    turn nor the way it ends. *)
Theorem posts_and_catch_put_are_best_effort message env w w' :
  llm_fetch w = llm_fetch w' -> kv_put_try w = kv_put_try w' -> now w = now w' ->
  process_message message env w = process_message message env w'.
Proof.
  intros Hllm Hput Hnow. rewrite !process_message_turn. unfold turn.
  destruct (build_task (message_body message)) as [task | e0].
  - rewrite (llm_answer_depends task env w w' Hllm), Hput, Hnow. reflexivity.
  - rewrite Hnow. reflexivity.
Qed.

(** *** A failure that asks for a retry *)




(** *** The posts *)




(** *** Messages from which no task is formed *)

Lemma props_non_nullish v : nullish v = false -> forall k, prop v k = Ok (opt_prop v k).
Proof. intros Hv k. apply prop_non_nullish, Hv. Qed.

Lemma opt_prop_nullish v k : nullish v = true -> opt_prop v k = JUndefined.
Proof. destruct v; try discriminate; reflexivity. Qed.

Lemma marker_non_nullish op : merge_request_marker op = true -> nullish op = false.
Proof. destruct op; try discriminate; reflexivity. Qed.

Lemma prop_nullish_throws v k :
  nullish v = true ->
  prop v k = Throw (TypeError ("Cannot read properties of " ++ to_string v
                               ++ " (reading '" ++ k ++ "')")).
Proof. destruct v; try discriminate; reflexivity. Qed.







(** X18. A message whose payload is [null] or [undefined]: no task is
    formed, a [failed] outcome read off the message is stored under
    [review:<id>:unknown/repo:unknown_pr_mr:<id>], where [<id>] is the event
    id or [unknown_event], and the message is acknowledged. *)
Theorem nullish_payload_is_recorded message env w :
  nullish (originalPayload (message_body message)) = true ->
  exists o,
    process_message message env w
    = ([KV_put ("review:" ++ fallback_id (message_body message)
                ++ ":unknown/repo:unknown_pr_mr:" ++ fallback_id (message_body message))
          o failed (now w);
        Ack (message_id message)],
       Ok tt)
    /\ taskId o = fallback_id (message_body message)
    /\ status o = failed
    /\ out_pullRequest o = None /\ out_mergeRequest o = None
    /\ out_error o
       = Some ("Critical processing error before task formation: "
               ++ "Cannot read properties of "
               ++ to_string (originalPayload (message_body message))
               ++ " (reading 'repository')").
Proof.
  intros Hn. rewrite process_message_turn. unfold turn.
  assert (Hbuild : build_task (message_body message)
                   = Throw (TypeError ("Cannot read properties of "
                                       ++ to_string (originalPayload (message_body message))
                                       ++ " (reading 'repository')"))).
  { unfold build_task. cbv zeta. unfold get, get_opt, js_or. cbn [rbind].
    rewrite (prop_nullish_throws _ "repository" Hn). reflexivity. }
  rewrite Hbuild. unfold fallback_outcome, handled, errorReviewId, fallback_id. cbv zeta.
  rewrite !(opt_prop_nullish _ _ Hn). cbn [truthy andb rbind isErrorRetryable app].
  cbn [opt_prop or_else truthy]. cbn [taskId status timestamp out_repository to_string].
  eexists. split; [reflexivity |]. cbn [taskId status out_pullRequest out_mergeRequest
                                        out_error error_message].
  repeat split.
Qed.

(** *** The outcomes stored *)









End Consumer.

(** *** The body of a GitLab note *)

(** X20. The note always carries the comment; it carries a position
    exactly when the comment names a file and a line or position, and then
    the position has that file as both paths, a line that is not missing,
    and the head commit of the merge request as its three commits. *)
Theorem gitlab_position_is_anchored mr c :
  opt_prop (gitlab_body mr c) "body" = comment c
  /\ (nullish (opt_prop (gitlab_body mr c) "position") = false
      <-> truthy (filePath c) = true
          /\ (truthy (lineNumber c) = true \/ truthy (position c) = true))
  /\ (nullish (opt_prop (gitlab_body mr c) "position") = false ->
      truthy (opt_prop (opt_prop (gitlab_body mr c) "position") "new_line") = true
      /\ (opt_prop (opt_prop (gitlab_body mr c) "position") "new_line" = lineNumber c
          \/ truthy (lineNumber c) = false
             /\ opt_prop (opt_prop (gitlab_body mr c) "position") "new_line" = position c)
      /\ opt_prop (opt_prop (gitlab_body mr c) "position") "old_path" = filePath c
      /\ opt_prop (opt_prop (gitlab_body mr c) "position") "new_path" = filePath c
      /\ opt_prop (opt_prop (gitlab_body mr c) "position") "base_sha" = mr_headSha mr
      /\ opt_prop (opt_prop (gitlab_body mr c) "position") "start_sha" = mr_headSha mr
      /\ opt_prop (opt_prop (gitlab_body mr c) "position") "head_sha" = mr_headSha mr).
Proof.
  unfold gitlab_body.
  destruct (truthy (filePath c)) eqn:Hf; cbn [andb].
  - destruct (truthy (lineNumber c)) eqn:Hl; cbn [orb].
    + split; [reflexivity |]. split; [split; auto |]. intros _.
      cbn. unfold or_else. rewrite Hl. repeat split; auto.
    + destruct (truthy (position c)) eqn:Hp.
      * split; [reflexivity |]. split; [split; auto |]. intros _.
        cbn. unfold or_else. rewrite Hl. repeat split; auto.
      * split; [reflexivity |].
        split; [split; [discriminate | intros [_ [? | ?]]; discriminate] | discriminate].
  - split; [reflexivity |].
    split; [split; [discriminate | intros [? _]; discriminate] | discriminate].
Qed.

(** *** The task *)

Lemma js_or_default a d v :
  a ||| Ok d = Ok v -> truthy d = true -> truthy v = true.
Proof.
  unfold js_or. destruct a as [x | e]; cbn [rbind]; [| discriminate].
  destruct (truthy x) eqn:Hx; intros E Hd; injection E as <-; assumption.
Qed.

(** X21. In every task the repository name, the default branch and the
    review type are present: the defaults [unknown/repo], [main] and
    [general] stand in for what the message lacks; the provider and the
    event id are those of the message. *)
Theorem build_task_defaults body task :
  build_task body = Ok task ->
  truthy (fullName (repository task)) = true
  /\ truthy (defaultBranch (repository task)) = true
  /\ truthy (reviewType task) = true
  /\ source task = msg_source body
  /\ eventId task = msg_eventId body.
Proof.
  unfold build_task. cbv zeta.
  destruct (_ ||| Ok (JStr "unknown/repo")) as [full_name |] eqn:Hname;
    cbn [rbind]; [| discriminate].
  destruct (_ ||| Ok (JNum 0)) as [id |]; cbn [rbind]; [| discriminate].
  destruct (_ ||| Ok (JStr "main")) as [branch |] eqn:Hbranch;
    cbn [rbind]; [| discriminate].
  destruct (build_pullRequest _) as [pr |]; cbn [rbind]; [| discriminate].
  destruct (build_mergeRequest _) as [mr |]; cbn [rbind]; [| discriminate].
  destruct (_ ||| Ok (JStr "general")) as [review_type |] eqn:Htype;
    cbn [rbind]; [| discriminate].
  match goal with
  | |- rbind ?x _ = Ok _ -> _ => destruct x; cbn [rbind]; [| discriminate]
  end.
  intros E. injection E as <-. cbn.
  repeat split;
    [apply (js_or_default _ _ _ Hname) | apply (js_or_default _ _ _ Hbranch)
     | apply (js_or_default _ _ _ Htype)]; reflexivity.
Qed.

Lemma build_pullRequest_comments_url op pr :
  build_pullRequest op = Ok (Some pr) ->
  commentsUrl pr = opt_prop (opt_prop op "pull_request") "comments_url".
Proof.
  unfold build_pullRequest.
  destruct (nullish op) eqn:Hn.
  - destruct op; try discriminate Hn; discriminate.
  - rewrite (props_non_nullish op Hn). cbn [rbind].
    destruct (truthy (opt_prop op "pull_request")) eqn:Ht; [| discriminate].
    pose proof (props_non_nullish _ (truthy_non_nullish _ Ht)) as Hp.
    rewrite !(get_Ok _ _ (truthy_non_nullish _ Ht)), !get_opt_Ok, !js_or_Ok, !Hp.
    cbn [rbind]. intros E. injection E as <-. reflexivity.
Qed.

Lemma build_mergeRequest_notes_url op mr :
  build_mergeRequest op = Ok (Some mr) ->
  prefix "https://gitlab.com/api/v4/projects/" (notesUrl mr) = true.
Proof.
  unfold build_mergeRequest.
  repeat match goal with
         | |- rbind ?x _ = Ok _ -> _ => destruct x; cbn [rbind]; [| discriminate]
         | |- (if ?b then _ else _) = Ok _ -> _ => destruct b; [| discriminate]
         end.
  intros E. injection E as <-. cbn [notesUrl].
  exact (prefix_app "https://gitlab.com/api/v4/projects/" _).
Qed.

(** X22. Where the comments of a task go.  For provider A: to the
    [comments_url] the payload gives for its pull request, with the GitHub
    token.  For provider B: to the notes of the merge request on
    [gitlab.com], with the GitLab token. *)
Theorem post_target_of_a_task body task env url token builder :
  build_task body = Ok task ->
  vcs_target task env = Ok (url, token, builder) ->
  (msg_source body = "github"
   /\ token = GITHUB_TOKEN env
   /\ url = to_string (opt_prop (opt_prop (originalPayload body) "pull_request")
                         "comments_url"))
  \/ (msg_source body = "gitlab"
      /\ token = GITLAB_TOKEN env
      /\ prefix "https://gitlab.com/api/v4/projects/" url = true).
Proof.
  intros Hbuild. destruct (build_task_parts body task Hbuild) as (Hpr & Hmr & Hsrc & _).
  unfold vcs_target. rewrite Hsrc.
  destruct (String.eqb_spec (msg_source body) "github") as [Hgh | Hgh].
  - destruct (pullRequest task) as [pr |] eqn:Hp.
    + intros E. injection E as <- <- _. left. split; [exact Hgh |]. split; [reflexivity |].
      rewrite (build_pullRequest_comments_url _ _ Hpr). reflexivity.
    + rewrite Hgh. change ("github" =? "gitlab") with false. discriminate.
  - destruct (String.eqb_spec (msg_source body) "gitlab") as [Hgl | Hgl].
    + destruct (mergeRequest task) as [mr |] eqn:Hm.
      * destruct (pullRequest task); intros E; injection E as <- <- _; right;
          (split; [exact Hgl |]); (split; [reflexivity |]);
          apply (build_mergeRequest_notes_url _ _ Hmr).
      * destruct (pullRequest task); discriminate.
    + destruct (pullRequest task), (mergeRequest task); discriminate.
Qed.

(** *** The theorems at the sample messages *)

(** The sample pull-request message in a world where the LLM endpoint
    answers [llm] and the VCS API answers every post with [vcs]. *)
Definition sample_turn (llm vcs : fetch_result) : list call * res unit :=
  process_message (H := Sample.platform) Sample.github_message Sample.reviewer_env
    (Sample.answers llm vcs).




Definition review : fetch_result := HttpResponse 200 (Ok Sample.envelope_text).


Definition null_message : Message :=
  {| message_id := "null-1"; message_body := Sample.body_of "github" JNull |}.

Lemma best_effort_witness :
  sample_turn review Sample.created = sample_turn review Sample.server_error.
Proof.
  apply (@posts_and_catch_put_are_best_effort Sample.platform Sample.github_message
           Sample.reviewer_env (Sample.answers review Sample.created)
           (Sample.answers review Sample.server_error));
    reflexivity.
Defined.





Lemma nullish_payload_witness :
  exists o,
    process_message (H := Sample.platform) null_message Sample.reviewer_env
      (Sample.answers review Sample.created)
    = ([KV_put "review:gh_delivery_with_files:unknown/repo:unknown_pr_mr:gh_delivery_with_files"
          o failed "2024-01-01T00:00:00.000Z";
        Ack "null-1"],
       Ok tt)
    /\ taskId o = "gh_delivery_with_files"
    /\ status o = failed
    /\ out_pullRequest o = None /\ out_mergeRequest o = None
    /\ out_error o
       = Some ("Critical processing error before task formation: "
               ++ "Cannot read properties of null (reading 'repository')").
Proof.
  apply (@nullish_payload_is_recorded Sample.platform null_message Sample.reviewer_env
           (Sample.answers review Sample.created)).
  reflexivity.
Defined.

Lemma build_task_defaults_witness :
  exists task,
    build_task (message_body Sample.bare_message) = Ok task
    /\ fullName (repository task) = JStr "unknown/repo"
    /\ defaultBranch (repository task) = JStr "main"
    /\ truthy (fullName (repository task)) = true
    /\ truthy (defaultBranch (repository task)) = true
    /\ truthy (reviewType task) = true
    /\ source task = "github"
    /\ eventId task = "gh_delivery_with_files".
Proof.
  eexists. split; [reflexivity |]. split; [reflexivity |]. split; [reflexivity |].
  apply (build_task_defaults (message_body Sample.bare_message)). reflexivity.
Defined.

Lemma post_target_witness :
  (msg_source (message_body Sample.github_message) = "github"
   /\ "test_github_token" = GITHUB_TOKEN Sample.reviewer_env
   /\ "https://api.github.com/repos/test-owner/test-repo/issues/123/comments"
      = to_string (opt_prop (opt_prop (originalPayload (message_body Sample.github_message))
                               "pull_request") "comments_url"))
  \/ (msg_source (message_body Sample.github_message) = "gitlab"
      /\ "test_github_token" = GITLAB_TOKEN Sample.reviewer_env
      /\ prefix "https://gitlab.com/api/v4/projects/"
           "https://api.github.com/repos/test-owner/test-repo/issues/123/comments" = true).
Proof.
  apply (post_target_of_a_task (message_body Sample.github_message) Sample.github_task
           Sample.reviewer_env
           "https://api.github.com/repos/test-owner/test-repo/issues/123/comments"
           "test_github_token" (github_body Sample.a_pull_request));
    reflexivity.
Defined.

End ReviewerCoverage.
